(** * Storj configuration glue: miniogw.Config and overlay.Config

    A shallow embedding of [pkg/miniogw/config.go] and
    [pkg/overlay/config.go].  Go values are modelled as follows:

    - [int] is a 64-bit two's-complement integer, carried as a [Z] with
      the wrap-around written out ([GoInt]);
    - a call that returns [(x, err)] returns a [goresult];
    - a function body is a computation in a small trace/error monad
      ([Eff]): the trace lists the collaborator calls in program order,
      the outcome is a normal return, a returned error, or a run-time
      panic;
    - collaborators whose code lives in other packages are fields of a
      record of externals, so every statement holds for all of their
      behaviours unless an instance is named. *)

From Stdlib Require Import ZArith List String Ascii Bool Lia.
Import ListNotations.
Local Open Scope string_scope.
Local Open Scope list_scope.
Local Open Scope Z_scope.

(* ================================================================= *)
(** ** Go integers *)

Module GoInt.

(** Two's-complement reduction of [x] to a signed integer of [bits] bits. *)
Definition wrap (bits : Z) (x : Z) : Z :=
  let m := 2 ^ bits in
  let r := x mod m in
  if r <? 2 ^ (bits - 1) then r else r - m.

Definition in_range (bits : Z) (x : Z) : Prop :=
  - 2 ^ (bits - 1) <= x < 2 ^ (bits - 1).

(** Go's [int] on the 64-bit targets the gateway is built for. *)
Definition int_bits : Z := 64.

Definition int (x : Z) : Z := wrap int_bits x.
Definition int16 (x : Z) : Z := wrap 16 x.
Definition int32 (x : Z) : Z := wrap 32 x.

(** [x * y] on [int]: the product wraps. *)
Definition mul (x y : Z) : Z := int (x * y).

(** [x % y] on [int]: truncated remainder (sign of the dividend); a zero
    divisor is a run-time panic, rendered as [None]. *)
Definition rem (x y : Z) : option Z :=
  if y =? 0 then None else Some (Z.rem x y).

End GoInt.

(* ================================================================= *)
(** ** Go strings (byte strings) *)

Module GoStrings.

Fixpoint explode (s : string) : list string :=
  match s with
  | EmptyString => []
  | String c s' => String c EmptyString :: explode s'
  end.

Fixpoint rev_string (acc s : string) : string :=
  match s with
  | EmptyString => acc
  | String c s' => rev_string (String c acc) s'
  end.

(** Scan [s] from the left.  [skip] counts the bytes of a separator
    occurrence still to be dropped, [cur] is the reversed piece being
    collected, [n] the number of further cuts allowed ([None]: no limit). *)
Fixpoint split_scan (sep : string) (n : option nat) (skip : nat)
  (cur : string) (s : string) : list string :=
  match s with
  | EmptyString => [rev_string EmptyString cur]
  | String c s' =>
      match skip with
      | S k => split_scan sep n k cur s'
      | O =>
          let cut_allowed :=
            match n with Some O => false | _ => true end in
          if cut_allowed && prefix sep s then
            rev_string EmptyString cur
              :: split_scan sep (option_map Nat.pred n)
                   (String.length sep - 1) EmptyString s'
          else split_scan sep n O (String c cur) s'
      end
  end.

(** [strings.Split(s, sep)].  With an empty separator Go cuts after every
    UTF-8 sequence; the model cuts after every byte, which is the same on
    ASCII input. *)
Definition Split (s sep : string) : list string :=
  match sep with
  | EmptyString => explode s
  | _ => split_scan sep None O EmptyString s
  end.

(** [strings.SplitN(s, sep, n)] for [n > 0] and a non-empty separator:
    at most [n] pieces, the last one being the unsplit remainder. *)
Definition SplitN (s sep : string) (n : nat) : list string :=
  match n with
  | O => []
  | S k => split_scan sep (Some k) O EmptyString s
  end.


End GoStrings.

(* ================================================================= *)
(** ** Calls that return [(value, error)], and the effect monad *)

Inductive goresult (E A : Type) : Type :=
| Ok (a : A)
| Failed (e : E).
Arguments Ok {E A} a.
Arguments Failed {E A} e.

Module Eff.

Inductive outcome (E A : Type) : Type :=
| Ret (a : A)          (* the function returned normally, error nil *)
| Fail (e : E)         (* the function returned the error [e] *)
| Panic.               (* a run-time panic unwound the function *)
Arguments Ret {E A} a.
Arguments Fail {E A} e.
Arguments Panic {E A}.

(** A computation: the calls it made, in order, and how it ended. *)
Definition M (Ev E A : Type) : Type := (list Ev * outcome E A)%type.

Definition ret {Ev E A} (a : A) : M Ev E A := ([], Ret a).
Definition fail {Ev E A} (e : E) : M Ev E A := ([], Fail e).
Definition panic {Ev E A} : M Ev E A := ([], Panic).

Definition bind {Ev E A B} (m : M Ev E A) (k : A -> M Ev E B) : M Ev E B :=
  match m with
  | (t, Ret a) => let (t', r) := k a in (t ++ t', r)
  | (t, Fail e) => (t, Fail e)
  | (t, Panic) => (t, Panic)
  end.

(** An infallible call: recorded in the trace, its value passed on. *)
Definition call {Ev E A} (ev : Ev) (a : A) : M Ev E A := ([ev], Ret a).

(** A fallible call followed by [if err != nil { return ..., wrap(err) }]. *)
Definition try {Ev E X A} (ev : Ev) (wrap : X -> E) (r : goresult X A)
  : M Ev E A :=
  match r with
  | Ok a => ([ev], Ret a)
  | Failed x => ([ev], Fail (wrap x))
  end.

Definition trace {Ev E A} (m : M Ev E A) : list Ev := fst m.
Definition result {Ev E A} (m : M Ev E A) : outcome E A := snd m.

Module Notations.
Notation "x <- c ;; k" := (bind c (fun x => k))
  (at level 61, c at next level, right associativity).
End Notations.

End Eff.

Import Eff.Notations.

(* ================================================================= *)
(** ** Struct tags and the literals they hold *)

Module GoStrconv.

Definition digit_of (c : ascii) : option Z :=
  let n := Z.of_nat (nat_of_ascii c) in
  if (48 <=? n) && (n <=? 57) then Some (n - 48)
  else if (97 <=? n) && (n <=? 102) then Some (n - 87)
  else if (65 <=? n) && (n <=? 70) then Some (n - 55)
  else None.

(** Digits of [s] in [base], most significant first, folded onto [acc]. *)
Fixpoint digits (base : Z) (acc : Z) (s : string) : option Z :=
  match s with
  | EmptyString => Some acc
  | String c s' =>
      match digit_of c with
      | Some d => if d <? base then digits base (acc * base + d) s' else None
      | None => None
      end
  end.

Definition unsigned (base : Z) (s : string) : option Z :=
  match s with
  | EmptyString => None
  | _ => digits base 0 s
  end.

(** Base detection of [strconv.ParseInt(s, 0, _)]: [0x] hexadecimal,
    [0b] binary, [0o] or a leading [0] octal, decimal otherwise.
    (Digit-separating underscores are not modelled.) *)
Definition magnitude (s : string) : option Z :=
  match s with
  | String "0" (String "x" r) | String "0" (String "X" r) => unsigned 16 r
  | String "0" (String "b" r) | String "0" (String "B" r) => unsigned 2 r
  | String "0" (String "o" r) | String "0" (String "O" r) => unsigned 8 r
  | String "0" EmptyString => Some 0
  | String "0" r => unsigned 8 r
  | _ => unsigned 10 s
  end.

Definition check_range (bits : Z) (v : Z) : option Z :=
  if (- 2 ^ (bits - 1) <=? v) && (v <? 2 ^ (bits - 1)) then Some v else None.

(** [strconv.ParseInt(s, 0, bits)]; [None] stands for a returned error. *)
Definition ParseInt (s : string) (bits : Z) : option Z :=
  match s with
  | String "-" r =>
      match magnitude r with Some v => check_range bits (- v) | None => None end
  | String "+" r =>
      match magnitude r with Some v => check_range bits v | None => None end
  | _ =>
      match magnitude s with Some v => check_range bits v | None => None end
  end.

End GoStrconv.

Module GoTime.

(** [time.Duration]: a count of nanoseconds in an [int64]. *)
Definition Duration : Type := Z.

Definition Nanosecond : Duration := 1.
Definition Microsecond : Duration := 1000 * Nanosecond.
Definition Millisecond : Duration := 1000 * Microsecond.
Definition Second : Duration := 1000 * Millisecond.
Definition Minute : Duration := 60 * Second.
Definition Hour : Duration := 60 * Minute.

Definition unit_of (u : string) : option Duration :=
  if String.eqb u "ns" then Some Nanosecond
  else if String.eqb u "us" then Some Microsecond
  else if String.eqb u "ms" then Some Millisecond
  else if String.eqb u "s" then Some Second
  else if String.eqb u "m" then Some Minute
  else if String.eqb u "h" then Some Hour
  else None.

Definition is_digit (c : ascii) : bool :=
  let n := Z.of_nat (nat_of_ascii c) in (48 <=? n) && (n <=? 57).

(** One pass over a duration literal made of [<digits><unit>] groups.
    [num] is the number being read ([None] before its first digit),
    [unit] the reversed unit being read, [total] the sum so far. *)
Fixpoint groups (total : Z) (num : option Z) (unit : string) (s : string)
  : option Z :=
  let close :=
    match num, unit_of (GoStrings.rev_string EmptyString unit) with
    | Some v, Some u => Some (total + v * u)
    | _, _ => None
    end in
  match s with
  | EmptyString => close
  | String c s' =>
      if is_digit c then
        let d := Z.of_nat (nat_of_ascii c) - 48 in
        match unit with
        | EmptyString =>
            groups total (Some (match num with Some v => v * 10 + d | None => d end))
              EmptyString s'
        | _ =>
            match close with
            | Some t => groups t (Some d) EmptyString s'
            | None => None
            end
        end
      else
        match num with
        | Some _ => groups total num (String c unit) s'
        | None => None
        end
  end.

(** [time.ParseDuration] on unsigned literals without a fraction, such as
    ["1s"] or ["1h30m"], and on ["0"]; [None] stands for a returned error
    (and for the signed and fractional forms, which the tags do not use). *)
Definition ParseDuration (s : string) : option Duration :=
  if String.eqb s "0" then Some 0
  else
    match groups 0 None EmptyString s with
    | Some v => GoStrconv.check_range 64 v
    | None => None
    end.

End GoTime.

Module Tags.

(** A struct field as declared: its name and its [help] and [default]
    tags.  A field without a [default] tag starts at its zero value. *)
Record field : Type := mkField {
  fname : string;
  help : string;
  default : option string
}.

Fixpoint lookup (fs : list field) (n : string) : option field :=
  match fs with
  | [] => None
  | f :: fs' => if String.eqb (fname f) n then Some f else lookup fs' n
  end.

Definition default_string (fs : list field) (n : string) : option string :=
  match lookup fs n with
  | Some f => Some (match default f with Some d => d | None => "" end)
  | None => None
  end.

Definition default_int (bits : Z) (fs : list field) (n : string) : option Z :=
  match lookup fs n with
  | Some f =>
      match default f with
      | Some d => GoStrconv.ParseInt d bits
      | None => Some 0
      end
  | None => None
  end.

Definition default_duration (fs : list field) (n : string)
  : option GoTime.Duration :=
  match lookup fs n with
  | Some f =>
      match default f with
      | Some d => GoTime.ParseDuration d
      | None => Some 0
      end
  | None => None
  end.

(** A [float64] is carried as its IEEE-754 bit pattern; the code below
    only copies such values.  The one literal the tags use is ["0"]. *)
Definition float64 : Type := Z.

Definition default_float (fs : list field) (n : string) : option float64 :=
  match lookup fs n with
  | Some f =>
      match default f with
      | Some d => if String.eqb d "0" then Some 0 else None
      | None => Some 0
      end
  | None => None
  end.

End Tags.

(* ================================================================= *)
(** ** package storj: the two scheme structs the gateway fills in *)

Module Storj.

(** [storj.RedundancyAlgorithm]; [ReedSolomon] is the one constant the
    gateway names. *)
Inductive RedundancyAlgorithm : Type :=
| ReedSolomon
| OtherAlgorithm (code : Z).

(** [storj.RedundancyScheme]; the four share counts are [int16]. *)
Record RedundancyScheme : Type := mkRedundancyScheme {
  Algorithm : RedundancyAlgorithm;
  RequiredShares : Z;
  RepairShares : Z;
  OptimalShares : Z;
  TotalShares : Z
}.

(** [storj.EncryptionScheme] over the cipher type [C]; [BlockSize] is
    an [int32]. *)
Record EncryptionScheme (C : Type) : Type := mkEncryptionScheme {
  Cipher : C;
  BlockSize : Z
}.
Arguments mkEncryptionScheme {C} _ _.
Arguments Cipher {C} _.
Arguments BlockSize {C} _.

End Storj.

(* ================================================================= *)
(** ** package miniogw *)

Module Miniogw.

Import Tags.

(** *** Configuration structs, with their tags *)

Record RSConfig : Type := mkRSConfig {
  MaxBufferMem : Z;
  ErasureShareSize : Z;
  MinThreshold : Z;
  RepairThreshold : Z;
  SuccessThreshold : Z;
  MaxThreshold : Z
}.

Definition RSConfig_fields : list field :=
  [ mkField "MaxBufferMem"
      "maximum buffer memory (in bytes) to be allocated for read buffers"
      (Some "0x400000");
    mkField "ErasureShareSize"
      "the size of each new erasure sure in bytes" (Some "1024");
    mkField "MinThreshold"
      "the minimum pieces required to recover a segment. k." (Some "29");
    mkField "RepairThreshold"
      "the minimum safe pieces before a repair is triggered. m." (Some "35");
    mkField "SuccessThreshold"
      "the desired total pieces for a segment. o." (Some "80");
    mkField "MaxThreshold"
      "the largest amount of pieces to encode to. n." (Some "95") ].

Record NodeSelectionConfig : Type := mkNodeSelectionConfig {
  UptimeRatio : float64;
  UptimeCount : Z;
  AuditSuccessRatio : float64;
  AuditCount : Z
}.

Definition NodeSelectionConfig_fields : list field :=
  [ mkField "UptimeRatio"
      "a node's ratio of being up/online vs. down/offline" (Some "0");
    mkField "UptimeCount"
      "the number of times a node's uptime has been checked" (Some "0");
    mkField "AuditSuccessRatio"
      "a node's ratio of successful audits" (Some "0");
    mkField "AuditCount"
      "the number of times a node has been audited" (Some "0") ].

Record EncryptionConfig : Type := mkEncryptionConfig {
  Key : string;
  BlockSize : Z;
  DataType : Z;
  PathType : Z
}.

Definition EncryptionConfig_fields : list field :=
  [ mkField "Key" "root key for encrypting the data" None;
    mkField "BlockSize" "size (in bytes) of encrypted blocks" (Some "1024");
    mkField "DataType"
      "Type of encryption to use for content and metadata (1=AES-GCM, 2=SecretBox)"
      (Some "1");
    mkField "PathType"
      "Type of encryption to use for paths (0=Unencrypted, 1=AES-GCM, 2=SecretBox)"
      (Some "1") ].

Record MinioConfig : Type := mkMinioConfig {
  AccessKey : string;
  SecretKey : string;
  Dir : string
}.

Definition MinioConfig_fields : list field :=
  [ mkField "AccessKey" "Minio Access Key to use"
      (Some "insecure-dev-access-key");
    mkField "SecretKey" "Minio Secret Key to use"
      (Some "insecure-dev-secret-key");
    mkField "Dir" "Minio generic server config path" (Some "$CONFDIR/minio") ].

Record ClientConfig : Type := mkClientConfig {
  OverlayAddr : string;
  PointerDBAddr : string;
  APIKey : string;
  MaxInlineSize : Z;
  SegmentSize : Z
}.

Definition ClientConfig_fields : list field :=
  [ mkField "OverlayAddr" "Address to contact overlay server through" None;
    mkField "PointerDBAddr" "Address to contact pointerdb server through" None;
    mkField "APIKey" "API Key (TODO: this needs to change to macaroons somehow)"
      None;
    mkField "MaxInlineSize" "max inline segment size in bytes" (Some "4096");
    mkField "SegmentSize" "the size of a segment in bytes" (Some "64000000") ].

(** [provider.IdentityConfig], as far as this file reads it
    ([c.Identity.Server.Address]). *)
Record IdentityConfig : Type := mkIdentityConfig {
  ServerAddress : string
}.

Record Config : Type := mkConfig {
  Identity : IdentityConfig;
  Minio : MinioConfig;
  Client : ClientConfig;
  RS : RSConfig;
  Enc : EncryptionConfig;
  Node : NodeSelectionConfig
}.

(** *** The values the [default] tags denote *)

Definition opt_bind {A B} (o : option A) (k : A -> option B) : option B :=
  match o with Some a => k a | None => None end.

Notation "x <-? o ;; k" := (opt_bind o (fun x => k))
  (at level 61, o at next level, right associativity).

Definition RSConfig_default : option RSConfig :=
  mem <-? default_int 64 RSConfig_fields "MaxBufferMem" ;;
  ess <-? default_int 64 RSConfig_fields "ErasureShareSize" ;;
  k <-? default_int 64 RSConfig_fields "MinThreshold" ;;
  m <-? default_int 64 RSConfig_fields "RepairThreshold" ;;
  o <-? default_int 64 RSConfig_fields "SuccessThreshold" ;;
  n <-? default_int 64 RSConfig_fields "MaxThreshold" ;;
  Some (mkRSConfig mem ess k m o n).

Definition NodeSelectionConfig_default : option NodeSelectionConfig :=
  ur <-? default_float NodeSelectionConfig_fields "UptimeRatio" ;;
  uc <-? default_int 64 NodeSelectionConfig_fields "UptimeCount" ;;
  ar <-? default_float NodeSelectionConfig_fields "AuditSuccessRatio" ;;
  ac <-? default_int 64 NodeSelectionConfig_fields "AuditCount" ;;
  Some (mkNodeSelectionConfig ur uc ar ac).

Definition EncryptionConfig_default : option EncryptionConfig :=
  key <-? default_string EncryptionConfig_fields "Key" ;;
  bs <-? default_int 64 EncryptionConfig_fields "BlockSize" ;;
  dt <-? default_int 64 EncryptionConfig_fields "DataType" ;;
  pt <-? default_int 64 EncryptionConfig_fields "PathType" ;;
  Some (mkEncryptionConfig key bs dt pt).

(** The [$CONFDIR] placeholder of [Dir] is left as written. *)
Definition MinioConfig_default : option MinioConfig :=
  ak <-? default_string MinioConfig_fields "AccessKey" ;;
  sk <-? default_string MinioConfig_fields "SecretKey" ;;
  dir <-? default_string MinioConfig_fields "Dir" ;;
  Some (mkMinioConfig ak sk dir).

Definition ClientConfig_default : option ClientConfig :=
  oa <-? default_string ClientConfig_fields "OverlayAddr" ;;
  pa <-? default_string ClientConfig_fields "PointerDBAddr" ;;
  ak <-? default_string ClientConfig_fields "APIKey" ;;
  mis <-? default_int 64 ClientConfig_fields "MaxInlineSize" ;;
  ss <-? default_int 64 ClientConfig_fields "SegmentSize" ;;
  Some (mkClientConfig oa pa ak mis ss).

Definition Config_default (identity : IdentityConfig) : option Config :=
  minio <-? MinioConfig_default ;;
  client <-? ClientConfig_default ;;
  rs <-? RSConfig_default ;;
  enc <-? EncryptionConfig_default ;;
  node <-? NodeSelectionConfig_default ;;
  Some (mkConfig identity minio client rs enc node).

(** The configuration every [default] tag yields, with an empty
    identity section. *)
Definition defaultConfig : Config :=
  Eval cbv in
    match Config_default (mkIdentityConfig "") with
    | Some c => c
    | None =>
        mkConfig (mkIdentityConfig "") (mkMinioConfig "" "" "")
          (mkClientConfig "" "" "" 0 0) (mkRSConfig 0 0 0 0 0 0)
          (mkEncryptionConfig "" 0 0 0) (mkNodeSelectionConfig 0 0 0 0)
    end.

(** *** Values built by constructors that cannot fail

    Each is a record of the arguments its constructor received. *)

(** [ecclient.NewClient(identity, memoryLimit)] *)
Record ECClient (Id : Type) : Type := ecclient_NewClient {
  ec_identity : Id;
  ec_memoryLimit : Z
}.
Arguments ecclient_NewClient {Id} _ _.

(** [eestream.NewRSScheme(fc, erasureShareSize)] *)
Record ErasureScheme (F : Type) : Type := eestream_NewRSScheme {
  es_fc : F;
  es_erasureShareSize : Z
}.
Arguments eestream_NewRSScheme {F} _ _.
Arguments es_fc {F} _.
Arguments es_erasureShareSize {F} _.

(** [pb.NodeStats], the four fields the gateway sets. *)
Record NodeStats : Type := mkNodeStats {
  ns_UptimeCount : Z;
  ns_UptimeRatio : float64;
  ns_AuditSuccessRatio : float64;
  ns_AuditCount : Z
}.

(** [segments.NewSegmentStore(oc, ec, pdb, rs, threshold, nodeStats)] *)
Record SegmentStore (OC EC PDB RSt : Type) : Type := segments_NewSegmentStore {
  seg_oc : OC;
  seg_ec : EC;
  seg_pdb : PDB;
  seg_rs : RSt;
  seg_maxInlineSize : Z;
  seg_nodeStats : NodeStats
}.
Arguments segments_NewSegmentStore {OC EC PDB RSt} _ _ _ _ _ _.

(** [buckets.NewStore(streams)] *)
Record BucketStore (SS : Type) : Type := buckets_NewStore {
  bk_streams : SS
}.
Arguments buckets_NewStore {SS} _.

(** A [storj.Key]: a fixed-length byte array. *)
Definition StorjKey : Type := list ascii.

(** [key := new(storj.Key); copy(key[:], s)]: the first [n] bytes of
    [s], zero-filled up to [n]. *)
Definition copy_key (n : nat) (s : string) : StorjKey :=
  firstn n (list_ascii_of_string s ++ repeat zero n).

(** [kvmetainfo.New(buckets, streams, segments, pdb, key)] *)
Record Metainfo (BK SS SG PDB : Type) : Type := kvmetainfo_New {
  mi_buckets : BK;
  mi_streams : SS;
  mi_segments : SG;
  mi_pdb : PDB;
  mi_key : StorjKey
}.
Arguments kvmetainfo_New {BK SS SG PDB} _ _ _ _ _.

(** *** Collaborators declared in other packages *)

Record Externals : Type := mkExternals {
  FullIdentity : Type;          (* provider.FullIdentity *)
  OverlayClient : Type;         (* overlay.Client *)
  PointerDB : Type;             (* pdbclient.Client *)
  FEC : Type;                   (* infectious.FEC *)
  RedundancyStrategy : Type;    (* eestream.RedundancyStrategy *)
  StreamStore : Type;           (* streams.Store *)
  CipherType : Type;            (* storj.Cipher *)
  ExtError : Type;              (* errors these packages return *)
  KeySize : nat;                (* the length of a storj.Key *)
  storj_Cipher : Z -> CipherType;
  overlay_NewOverlayClient :
    FullIdentity -> string -> goresult ExtError OverlayClient;
  pdbclient_NewClient :
    FullIdentity -> string -> string -> goresult ExtError PointerDB;
  infectious_NewFEC : Z -> Z -> goresult ExtError FEC;
  eestream_NewRedundancyStrategy :
    ErasureScheme FEC -> Z -> Z -> goresult ExtError RedundancyStrategy;
  streams_NewStreamStore :
    SegmentStore OverlayClient (ECClient FullIdentity) PointerDB
      RedundancyStrategy ->
    Z -> StorjKey -> Z -> CipherType -> goresult ExtError StreamStore
}.

Definition SegmentStoreOf (X : Externals) : Type :=
  SegmentStore (OverlayClient X) (ECClient (FullIdentity X)) (PointerDB X)
    (RedundancyStrategy X).

Definition MetainfoOf (X : Externals) : Type :=
  Metainfo (BucketStore (StreamStore X)) (StreamStore X) (SegmentStoreOf X)
    (PointerDB X).

(** The calls [GetMetainfo] makes, as they appear in a trace. *)
Inductive call : Type :=
| CallNewOverlayClient (addr : string)
| CallNewPointerDBClient (addr apiKey : string)
| CallNewECClient (memoryLimit : Z)
| CallNewFEC (k n : Z)
| CallNewRSScheme (erasureShareSize : Z)
| CallNewRedundancyStrategy (repair optimal : Z)
| CallNewSegmentStore (maxInlineSize : Z)
| CallNewStreamStore (segmentSize blockSize : Z)
| CallNewBucketStore
| CallNewMetainfo.

(** Errors [GetMetainfo] can return: one handed up unchanged from a
    collaborator, or one made with the package's [Error.New]. *)
Inductive error (X : Type) : Type :=
| External (e : X)
| ErrorNew (msg : string).
Arguments External {X} e.
Arguments ErrorNew {X} msg.

Definition blockSizeMessage : string :=
  "EncryptionBlockSize must be a multiple of ErasureShareSize * RS MinThreshold".

(** [c.RS.ErasureShareSize*c.RS.MinThreshold%c.Enc.BlockSize]: the
    product is taken first and wraps; [None] when the divisor is 0. *)
Definition blockSizeRemainder (c : Config) : option Z :=
  GoInt.rem (GoInt.mul (ErasureShareSize (RS c)) (MinThreshold (RS c)))
    (BlockSize (Enc c)).

(** *** [Config.GetMetainfo]

    The deferred [mon.Task()(&ctx)(&err)] observes the context and the
    returned error and changes neither; it is left out. *)

Definition GetMetainfo (X : Externals) (c : Config) (identity : FullIdentity X)
  : Eff.M call (error (ExtError X)) (MetainfoOf X * StreamStore X) :=
  oc <- Eff.try (CallNewOverlayClient (OverlayAddr (Client c))) External
          (overlay_NewOverlayClient X identity (OverlayAddr (Client c))) ;;
  pdb <- Eff.try
           (CallNewPointerDBClient (PointerDBAddr (Client c)) (APIKey (Client c)))
           External
           (pdbclient_NewClient X identity (PointerDBAddr (Client c))
              (APIKey (Client c))) ;;
  ec <- Eff.call (CallNewECClient (MaxBufferMem (RS c)))
          (ecclient_NewClient identity (MaxBufferMem (RS c))) ;;
  fc <- Eff.try (CallNewFEC (MinThreshold (RS c)) (MaxThreshold (RS c)))
          External
          (infectious_NewFEC X (MinThreshold (RS c)) (MaxThreshold (RS c))) ;;
  es <- Eff.call (CallNewRSScheme (ErasureShareSize (RS c)))
          (eestream_NewRSScheme fc (ErasureShareSize (RS c))) ;;
  rs <- Eff.try
          (CallNewRedundancyStrategy (RepairThreshold (RS c))
             (SuccessThreshold (RS c)))
          External
          (eestream_NewRedundancyStrategy X es (RepairThreshold (RS c))
             (SuccessThreshold (RS c))) ;;
  let ns := {| ns_UptimeCount := UptimeCount (Node c);
               ns_UptimeRatio := UptimeRatio (Node c);
               ns_AuditSuccessRatio := AuditSuccessRatio (Node c);
               ns_AuditCount := AuditCount (Node c) |} in
  segments <- Eff.call (CallNewSegmentStore (MaxInlineSize (Client c)))
                (segments_NewSegmentStore oc ec pdb rs
                   (MaxInlineSize (Client c)) ns) ;;
  match blockSizeRemainder c with
  | None => Eff.panic
  | Some r =>
      if negb (r =? 0) then Eff.fail (ErrorNew blockSizeMessage)
      else
        let key := copy_key (KeySize X) (Key (Enc c)) in
        streams <- Eff.try
                     (CallNewStreamStore (SegmentSize (Client c))
                        (BlockSize (Enc c)))
                     External
                     (streams_NewStreamStore X segments (SegmentSize (Client c))
                        key (BlockSize (Enc c))
                        (storj_Cipher X (DataType (Enc c)))) ;;
        buckets <- Eff.call CallNewBucketStore (buckets_NewStore streams) ;;
        db <- Eff.call CallNewMetainfo
                (kvmetainfo_New buckets streams segments pdb key) ;;
        Eff.ret (db, streams)
  end.

(** What the caller of [GetMetainfo] receives as [(db, ss, err)]; a
    panic hands over nothing. *)
Definition returned {X : Externals}
  (r : Eff.outcome (error (ExtError X)) (MetainfoOf X * StreamStore X))
  : option (option (MetainfoOf X) * option (StreamStore X)
            * option (error (ExtError X))) :=
  match r with
  | Eff.Ret (db, ss) => Some (Some db, Some ss, None)
  | Eff.Fail e => Some (None, None, Some e)
  | Eff.Panic => None
  end.

(** *** [Config.GetRedundancyScheme] and [Config.GetEncryptionScheme] *)

Definition GetRedundancyScheme (c : Config) : Storj.RedundancyScheme :=
  {| Storj.Algorithm := Storj.ReedSolomon;
     Storj.RequiredShares := GoInt.int16 (MinThreshold (RS c));
     Storj.RepairShares := GoInt.int16 (RepairThreshold (RS c));
     Storj.OptimalShares := GoInt.int16 (SuccessThreshold (RS c));
     Storj.TotalShares := GoInt.int16 (MaxThreshold (RS c)) |}.

Definition GetEncryptionScheme (X : Externals) (c : Config)
  : Storj.EncryptionScheme (CipherType X) :=
  {| Storj.Cipher := storj_Cipher X (DataType (Enc c));
     Storj.BlockSize := GoInt.int32 (BlockSize (Enc c)) |}.

(** *** [Config.NewGateway] *)

(** [NewStorjGateway(metainfo, streams, pathCipher, encryption, redundancy)] *)
Record Gateway (X : Externals) : Type := NewStorjGateway {
  gw_metainfo : MetainfoOf X;
  gw_streams : StreamStore X;
  gw_pathCipher : CipherType X;
  gw_encryption : Storj.EncryptionScheme (CipherType X);
  gw_redundancy : Storj.RedundancyScheme
}.
Arguments NewStorjGateway {X} _ _ _ _ _.
Arguments gw_redundancy {X} _.
Arguments gw_encryption {X} _.

Definition NewGateway (X : Externals) (c : Config) (identity : FullIdentity X)
  : Eff.M call (error (ExtError X)) (Gateway X) :=
  ms <- GetMetainfo X c identity ;;
  Eff.ret (NewStorjGateway (fst ms) (snd ms)
             (storj_Cipher X (PathType (Enc c)))
             (GetEncryptionScheme X c) (GetRedundancyScheme c)).

(** *** The scheme constructors as the specification describes them

    [infectious.NewFEC] and [eestream.NewRedundancyStrategy] are not part
    of this package.  The definitions below follow the specification of
    the redundancy scheme and are used where a statement depends on what
    these constructors accept. *)

(** Modelled from the spec: the value [infectious.NewFEC(k, n)] returns,
    required and total share counts. *)
Record SpecFEC : Type := mkSpecFEC {
  fec_k : Z;
  fec_n : Z
}.

(** Modelled from the spec: the value [eestream.NewRedundancyStrategy]
    returns, an erasure scheme with its repair and optimal thresholds. *)
Record SpecRedundancyStrategy : Type := mkSpecRedundancyStrategy {
  rs_scheme : ErasureScheme SpecFEC;
  rs_repair : Z;
  rs_optimal : Z
}.

(** Modelled from the spec: [infectious.NewFEC(k, n)], missing from the
    sources; "constructed from (k, n, ErasureShareSize) with validation
    0 < k <= n", failing with InvalidScheme ([invalid]) on violation. *)
Definition spec_NewFEC {E : Type} (invalid : E) (k n : Z)
  : goresult E SpecFEC :=
  if (0 <? k) && (k <=? n) then Ok (mkSpecFEC k n) else Failed invalid.

(** Modelled from the spec: [eestream.NewRedundancyStrategy(es, m, o)],
    missing from the sources; "ErasureShareSize > 0" and "(m, o)
    validated against k <= m <= o <= n", failing with InvalidScheme
    ([invalid]) on violation.  The share size is checked here because
    [eestream.NewRSScheme] returns no error. *)
Definition spec_NewRedundancyStrategy {E : Type} (invalid : E)
  (es : ErasureScheme SpecFEC) (m o : Z)
  : goresult E SpecRedundancyStrategy :=
  if (0 <? es_erasureShareSize es)
     && (fec_k (es_fc es) <=? m) && (m <=? o) && (o <=? fec_n (es_fc es))
  then Ok (mkSpecRedundancyStrategy es m o)
  else Failed invalid.

(** Modelled from the spec: [storj.Cipher], whose declaration is missing
    from the sources; "Cipher (enum: AES-GCM, SecretBox)", numbered as
    the [DataType] and [PathType] tags say. *)
Inductive SpecCipher : Type :=
| Unencrypted
| AESGCM
| SecretBox
| UnknownCipher (code : Z).

Definition spec_Cipher (x : Z) : SpecCipher :=
  match x with
  | 0 => Unencrypted
  | 1 => AESGCM
  | 2 => SecretBox
  | _ => UnknownCipher x
  end.

(** Everything else [GetMetainfo] talks to: the two network clients and
    the stream store, left arbitrary. *)
Record Network : Type := mkNetwork {
  net_Identity : Type;
  net_OverlayClient : Type;
  net_PointerDB : Type;
  net_StreamStore : Type;
  net_Error : Type;
  net_KeySize : nat;
  net_InvalidScheme : net_Error;
  net_NewOverlayClient :
    net_Identity -> string -> goresult net_Error net_OverlayClient;
  net_NewPointerDB :
    net_Identity -> string -> string -> goresult net_Error net_PointerDB;
  net_NewStreamStore :
    SegmentStore net_OverlayClient (ECClient net_Identity) net_PointerDB
      SpecRedundancyStrategy ->
    Z -> StorjKey -> Z -> SpecCipher -> goresult net_Error net_StreamStore
}.

(** The collaborators with the scheme constructors of the specification
    over the network [N]. *)
Definition specExternals (N : Network) : Externals :=
  {| FullIdentity := net_Identity N;
     OverlayClient := net_OverlayClient N;
     PointerDB := net_PointerDB N;
     FEC := SpecFEC;
     RedundancyStrategy := SpecRedundancyStrategy;
     StreamStore := net_StreamStore N;
     CipherType := SpecCipher;
     ExtError := net_Error N;
     KeySize := net_KeySize N;
     storj_Cipher := spec_Cipher;
     overlay_NewOverlayClient := net_NewOverlayClient N;
     pdbclient_NewClient := net_NewPointerDB N;
     infectious_NewFEC := spec_NewFEC (net_InvalidScheme N);
     eestream_NewRedundancyStrategy :=
       spec_NewRedundancyStrategy (net_InvalidScheme N);
     streams_NewStreamStore := net_NewStreamStore N |}.

(** Errors of the sample network. *)
Inductive SampleError : Type :=
| InvalidScheme
| Unreachable (addr : string).

(** A network in which every address answers and the stream store
    accepts every argument: clients and store are records of what they
    were built from. *)
Definition sampleNetwork : Network :=
  {| net_Identity := unit;
     net_OverlayClient := string;
     net_PointerDB := (string * string)%type;
     net_StreamStore :=
       (SegmentStore string (ECClient unit) (string * string)
          SpecRedundancyStrategy * Z * StorjKey * Z * SpecCipher)%type;
     net_Error := SampleError;
     net_KeySize := 32;
     net_InvalidScheme := InvalidScheme;
     net_NewOverlayClient := fun _ addr => Ok addr;
     net_NewPointerDB := fun _ addr key => Ok (addr, key);
     net_NewStreamStore := fun sg sz key bs ci => Ok (sg, sz, key, bs, ci) |}.

Definition sampleExternals : Externals := specExternals sampleNetwork.

(** The bounds of a redundancy scheme, on a configuration. *)
Definition schemeBounds (c : Config) : Prop :=
  0 < MinThreshold (RS c)
  /\ MinThreshold (RS c) <= RepairThreshold (RS c)
  /\ RepairThreshold (RS c) <= SuccessThreshold (RS c)
  /\ SuccessThreshold (RS c) <= MaxThreshold (RS c)
  /\ 0 < ErasureShareSize (RS c).

Definition schemeBoundsOf (s : Storj.RedundancyScheme) : Prop :=
  0 < Storj.RequiredShares s
  /\ Storj.RequiredShares s <= Storj.RepairShares s
  /\ Storj.RepairShares s <= Storj.OptimalShares s
  /\ Storj.OptimalShares s <= Storj.TotalShares s.

(** The overlay client, the pointer DB client, the FEC and the
    redundancy strategy were all constructed without error. *)
Definition schemeBuilt (X : Externals) (c : Config) (identity : FullIdentity X)
  : Prop :=
  exists oc pdb fc rs,
    overlay_NewOverlayClient X identity (OverlayAddr (Client c)) = Ok oc
    /\ pdbclient_NewClient X identity (PointerDBAddr (Client c))
         (APIKey (Client c)) = Ok pdb
    /\ infectious_NewFEC X (MinThreshold (RS c)) (MaxThreshold (RS c)) = Ok fc
    /\ eestream_NewRedundancyStrategy X
         (eestream_NewRSScheme fc (ErasureShareSize (RS c)))
         (RepairThreshold (RS c)) (SuccessThreshold (RS c)) = Ok rs.

(** Replace the redundancy section of a configuration. *)
Definition withRS (c : Config) (rs : RSConfig) : Config :=
  mkConfig (Identity c) (Minio c) (Client c) rs (Enc c) (Node c).

(** Replace the encryption section of a configuration. *)
Definition withEnc (c : Config) (enc : EncryptionConfig) : Config :=
  mkConfig (Identity c) (Minio c) (Client c) (RS c) enc (Node c).

(** *** The parts of a successful [GetMetainfo], named *)

Definition nodeStatsOf (c : Config) : NodeStats :=
  {| ns_UptimeCount := UptimeCount (Node c);
     ns_UptimeRatio := UptimeRatio (Node c);
     ns_AuditSuccessRatio := AuditSuccessRatio (Node c);
     ns_AuditCount := AuditCount (Node c) |}.

(** The segment store built over the clients [oc], [pdb] and the
    strategy [rs]. *)
Definition segmentStoreFor (X : Externals) (c : Config)
  (identity : FullIdentity X) (oc : OverlayClient X) (pdb : PointerDB X)
  (rs : RedundancyStrategy X) : SegmentStoreOf X :=
  segments_NewSegmentStore oc
    (ecclient_NewClient identity (MaxBufferMem (RS c))) pdb rs
    (MaxInlineSize (Client c)) (nodeStatsOf c).

Definition keyOf (X : Externals) (c : Config) : StorjKey :=
  copy_key (KeySize X) (Key (Enc c)).

(** The call of [streams.NewStreamStore] over the segment store [sg]. *)
Definition newStreamStoreFor (X : Externals) (c : Config)
  (sg : SegmentStoreOf X) : goresult (ExtError X) (StreamStore X) :=
  streams_NewStreamStore X sg (SegmentSize (Client c)) (keyOf X c)
    (BlockSize (Enc c)) (storj_Cipher X (DataType (Enc c))).

(** The metainfo built over the stream store [ss]. *)
Definition metainfoFor (X : Externals) (c : Config) (sg : SegmentStoreOf X)
  (pdb : PointerDB X) (ss : StreamStore X) : MetainfoOf X :=
  kvmetainfo_New (buckets_NewStore ss) ss sg pdb (keyOf X c).

(** The ten calls of [GetMetainfo], in program order. *)
Definition callSequence (c : Config) : list call :=
  [ CallNewOverlayClient (OverlayAddr (Client c));
    CallNewPointerDBClient (PointerDBAddr (Client c)) (APIKey (Client c));
    CallNewECClient (MaxBufferMem (RS c));
    CallNewFEC (MinThreshold (RS c)) (MaxThreshold (RS c));
    CallNewRSScheme (ErasureShareSize (RS c));
    CallNewRedundancyStrategy (RepairThreshold (RS c))
      (SuccessThreshold (RS c));
    CallNewSegmentStore (MaxInlineSize (Client c));
    CallNewStreamStore (SegmentSize (Client c)) (BlockSize (Enc c));
    CallNewBucketStore;
    CallNewMetainfo ].

(** Replace the root key of a configuration. *)
Definition withKey (c : Config) (key : string) : Config :=
  withEnc c (mkEncryptionConfig key (BlockSize (Enc c)) (DataType (Enc c))
               (PathType (Enc c))).

(** *** [Config.Run] and [Config.action]

    What the gateway process does around [NewGateway]: the identity is
    loaded, the gateway command is registered with minio, the two minio
    credentials are exported to the environment and minio's [Main] is
    entered.  Minio calls the registered action back with a
    [cli.Context]. *)

(** [Logging(gw, log)] *)
Record LoggingGateway (G L : Type) : Type := Logging {
  lg_gateway : G;
  lg_log : L
}.
Arguments Logging {G L} _ _.

(** What [Run] and [action] do, as it appears in a trace;
    [EvConstruct] is a call made by [GetMetainfo]. *)
Inductive hostEvent (X : Externals) (CliCtx L : Type) : Type :=
| EvIdentityLoad
| EvRegisterGatewayCommand (name usage : string) (hideHelpCommand : bool)
| EvSetenv (key value : string)
| EvMinioMain (args : list string)
| EvConstruct (c : call)
| EvStartGateway (cliCtx : CliCtx) (gw : LoggingGateway (Gateway X) L).
Arguments EvIdentityLoad {X CliCtx L}.
Arguments EvRegisterGatewayCommand {X CliCtx L} name usage hideHelpCommand.
Arguments EvSetenv {X CliCtx L} key value.
Arguments EvMinioMain {X CliCtx L} args.
Arguments EvConstruct {X CliCtx L} c.
Arguments EvStartGateway {X CliCtx L} cliCtx gw.

(** [cli.Command], the fields [Run] fills in. *)
Record Command (X : Externals) (CliCtx L : Type) : Type := mkCommand {
  Name : string;
  Usage : string;
  Action :
    CliCtx -> Eff.M (hostEvent X CliCtx L) (error (ExtError X)) unit;
  HideHelpCommand : bool
}.
Arguments mkCommand {X CliCtx L} _ _ _ _.
Arguments Name {X CliCtx L} _.
Arguments Usage {X CliCtx L} _.
Arguments Action {X CliCtx L} _.
Arguments HideHelpCommand {X CliCtx L} _.

(** The process around the gateway; a call that returns only an error
    returns [None] for nil. *)
Record Host (X : Externals) : Type := mkHost {
  CliContext : Type;                        (* cli.Context *)
  Logger : Type;                            (* zap.Logger *)
  zap_L : Logger;
  identity_Load : IdentityConfig -> goresult (ExtError X) (FullIdentity X);
  minio_RegisterGatewayCommand :
    Command X CliContext Logger -> option (ExtError X);
  os_Setenv : string -> string -> option (ExtError X)
}.
Arguments CliContext {X} _.
Arguments Logger {X} _.
Arguments zap_L {X} _.
Arguments identity_Load {X} _ _.
Arguments minio_RegisterGatewayCommand {X} _ _.
Arguments os_Setenv {X} _ _ _.

Definition HostEvent (X : Externals) (H : Host X) : Type :=
  hostEvent X (CliContext H) (Logger H).

(** A call that returns only an error, followed by
    [if err != nil { return err }]. *)
Definition check {Ev E X : Type} (ev : Ev) (wrap : X -> E) (r : option X)
  : Eff.M Ev E unit :=
  match r with
  | None => ([ev], Eff.Ret tt)
  | Some x => ([ev], Eff.Fail (wrap x))
  end.

(** A computation over [call]s, run inside the host. *)
Definition construct {X : Externals} {H : Host X} {A : Type}
  (m : Eff.M call (error (ExtError X)) A)
  : Eff.M (HostEvent X H) (error (ExtError X)) A :=
  (map EvConstruct (fst m), snd m).

Definition exitMessage : string := "unexpected minio exit".

(** [Config.action] *)
Definition action (X : Externals) (H : Host X) (c : Config)
  (cliCtx : CliContext H) (identity : FullIdentity X)
  : Eff.M (HostEvent X H) (error (ExtError X)) unit :=
  gw <- construct (NewGateway X c identity) ;;
  _ <- Eff.call (EvStartGateway cliCtx (Logging gw (zap_L H))) tt ;;
  Eff.fail (ErrorNew exitMessage).

(** The command [Run] registers for the loaded [identity]. *)
Definition gatewayCommand (X : Externals) (H : Host X) (c : Config)
  (identity : FullIdentity X) : Command X (CliContext H) (Logger H) :=
  {| Name := "storj";
     Usage := "Storj";
     Action := fun cliCtx => action X H c cliCtx identity;
     HideHelpCommand := true |}.

(** The arguments [Run] passes to [minio.Main]. *)
Definition mainArgs (c : Config) : list string :=
  [ "storj"; "gateway"; "storj";
    "--address"; ServerAddress (Identity c);
    "--config-dir"; Dir (Minio c); "--quiet" ].

(** [Config.Run] *)
Definition Run (X : Externals) (H : Host X) (c : Config)
  : Eff.M (HostEvent X H) (error (ExtError X)) unit :=
  identity <- Eff.try EvIdentityLoad External (identity_Load H (Identity c)) ;;
  _ <- check (EvRegisterGatewayCommand "storj" "Storj" true) External
         (minio_RegisterGatewayCommand H (gatewayCommand X H c identity)) ;;
  _ <- check (EvSetenv "MINIO_ACCESS_KEY" (AccessKey (Minio c))) External
         (os_Setenv H "MINIO_ACCESS_KEY" (AccessKey (Minio c))) ;;
  _ <- check (EvSetenv "MINIO_SECRET_KEY" (SecretKey (Minio c))) External
         (os_Setenv H "MINIO_SECRET_KEY" (SecretKey (Minio c))) ;;
  _ <- Eff.call (EvMinioMain (mainArgs c)) tt ;;
  Eff.fail (ErrorNew exitMessage).



(** A host in which the identity loads, the command registers, and the
    environment rejects a value holding a NUL byte. *)
Definition sampleHost : Host sampleExternals :=
  @mkHost sampleExternals unit unit tt
    (fun _ => Ok tt)
    (fun _ => None)
    (fun key value =>
       if existsb (Ascii.eqb zero) (list_ascii_of_string value)
       then Some (Unreachable key) else None).

(** Sample configurations: the defaults with one section changed. *)

(** Fewer total shares than required shares. *)
Definition shortTotalConfig : Config :=
  withRS defaultConfig (mkRSConfig 4194304 1024 29 35 80 10).

(** A block size that does not divide 1024 * 29. *)
Definition oddBlockConfig : Config :=
  withEnc defaultConfig (mkEncryptionConfig "" 1000 1 1).

(** All share counts zero. *)
Definition zeroSharesConfig : Config :=
  withRS defaultConfig (mkRSConfig 4194304 1024 0 0 0 0).

(** A required-share count beyond the [int16] range. *)
Definition wideThresholdConfig : Config :=
  withRS defaultConfig (mkRSConfig 4194304 1024 40000 40000 40000 40000).

End Miniogw.

(* ================================================================= *)
(** ** package context: value-carrying contexts *)

Module GoContext.

(** A context key is an interface value: equal keys have the same
    dynamic type and the same value.  [KInt ty n] is an integer-based
    key of the named type [ty], [KString s] an untyped string key. *)
Inductive key : Type :=
| KInt (ty : string) (n : Z)
| KString (s : string).

Definition key_eqb (a b : key) : bool :=
  match a, b with
  | KInt t n, KInt t' n' => String.eqb t t' && (n =? n')
  | KString s, KString s' => String.eqb s s'
  | _, _ => false
  end.

(** [context.Background()] and [context.WithValue(parent, key, val)];
    [val] is an interface value and may be nil ([None]). *)
Inductive context (V : Type) : Type :=
| Background
| WithValue (parent : context V) (k : key) (val : option V).
Arguments Background {V}.
Arguments WithValue {V} parent k val.

(** [ctx.Value(key)]: the value of the innermost binding of [key], nil
    when there is none. *)
Fixpoint Value {V : Type} (ctx : context V) (k : key) : option V :=
  match ctx with
  | Background => None
  | WithValue parent k' val =>
      if key_eqb k' k then val else Value parent k
  end.

(** Every binding made on the way to [ctx], innermost first. *)
Fixpoint bindings {V : Type} (ctx : context V) : list (key * option V) :=
  match ctx with
  | Background => []
  | WithValue parent k val => (k, val) :: bindings parent
  end.

End GoContext.

(* ================================================================= *)
(** ** package overlay *)

Module Overlay.

Import Tags GoContext.

Record Config : Type := mkConfig {
  DatabaseURL : string;
  RefreshInterval : GoTime.Duration
}.

Definition Config_fields : list field :=
  [ mkField "DatabaseURL" "the database connection string to use"
      (Some "bolt://$CONFDIR/overlay.db");
    mkField "RefreshInterval"
      "the interval at which the cache refreshes itself in seconds"
      (Some "1s") ].

Record LookupConfig : Type := mkLookupConfig {
  NodeIDsString : string;
  Delimiter : string
}.

Definition LookupConfig_fields : list field :=
  [ mkField "NodeIDsString"
      "one or more string-encoded node IDs, delimited by Delimiter" None;
    mkField "Delimiter" "delimiter used for parsing node IDs" (Some ",") ].

(** The values the [default] tags denote ([$CONFDIR] left as written). *)
Definition Config_default : option Config :=
  match default_string Config_fields "DatabaseURL",
        default_duration Config_fields "RefreshInterval" with
  | Some url, Some d => Some (mkConfig url d)
  | _, _ => None
  end.

Definition LookupConfig_default : option LookupConfig :=
  match default_string LookupConfig_fields "NodeIDsString",
        default_string LookupConfig_fields "Delimiter" with
  | Some ids, Some d => Some (mkLookupConfig ids d)
  | _, _ => None
  end.

(** [type CtxKey int] with its two constants, numbered by [iota]. *)
Definition CtxKey (n : Z) : key := KInt "overlay.CtxKey" n.
Definition ctxKeyOverlay : key := CtxKey 0.
Definition ctxKeyOverlayServer : key := CtxKey 1.

(** [NewOverlayCache(db, kad, statdb)] *)
Record Cache (DB KAD SDB : Type) : Type := NewOverlayCache {
  cache_db : DB;
  cache_kad : KAD;
  cache_statdb : SDB
}.
Arguments NewOverlayCache {DB KAD SDB} _ _ _.

(** [NewServer(log, cache, kad)] *)
Record Server (LOG CA KAD : Type) : Type := NewServer {
  srv_log : LOG;
  srv_cache : CA;
  srv_kad : KAD
}.
Arguments NewServer {LOG CA KAD} _ _ _.

(** The dynamic values a context can hold, as far as this package tells
    them apart: a [*Cache], a [*Server] (either may be a nil pointer),
    or a value of some other type. *)
Inductive any (CA SV F : Type) : Type :=
| AnyCache (p : option CA)
| AnyServer (p : option SV)
| AnyForeign (v : F).
Arguments AnyCache {CA SV F} p.
Arguments AnyServer {CA SV F} p.
Arguments AnyForeign {CA SV F} v.

(** Collaborators declared in other packages. *)
Record Externals : Type := mkExternals {
  Kademlia : Type;              (* kademlia.Kademlia *)
  StatDB : Type;                (* statdb.DB *)
  KeyValueStore : Type;         (* storage.KeyValueStore *)
  Logger : Type;                (* zap.Logger *)
  Provider : Type;              (* provider.Provider *)
  Foreign : Type;               (* context values of other types *)
  ExtError : Type;
  OverlayBucket : string;
  zap_L : Logger;
  kademlia_LoadFromContext :
    context (any (Cache KeyValueStore Kademlia StatDB)
               (Server Logger (Cache KeyValueStore Kademlia StatDB) Kademlia)
               Foreign) -> option Kademlia;
  (** [Some sdb] when the dynamic type of the value has a method
      [StatDB() statdb.DB], [sdb] being what the method returns *)
  statDBMethod :
    any (Cache KeyValueStore Kademlia StatDB)
      (Server Logger (Cache KeyValueStore Kademlia StatDB) Kademlia)
      Foreign -> option StatDB;
  utils_SplitDBURL : string -> goresult ExtError (string * string);
  boltdb_New : string -> string -> goresult ExtError KeyValueStore;
  redis_NewClientFrom : string -> goresult ExtError KeyValueStore;
  provider_Run :
    Provider ->
    context (any (Cache KeyValueStore Kademlia StatDB)
               (Server Logger (Cache KeyValueStore Kademlia StatDB) Kademlia)
               Foreign) -> option ExtError
}.

Definition CacheOf (X : Externals) : Type :=
  Cache (KeyValueStore X) (Kademlia X) (StatDB X).
Definition ServerOf (X : Externals) : Type :=
  Server (Logger X) (CacheOf X) (Kademlia X).
Definition AnyOf (X : Externals) : Type :=
  any (CacheOf X) (ServerOf X) (Foreign X).
Definition Ctx (X : Externals) : Type := context (AnyOf X).

(** Errors [Run] can return. *)
Inductive error (E : Type) : Type :=
| External (e : E)            (* handed up unchanged *)
| ErrorNew (msg : string)     (* [Error.New] *)
| ErrorWrap (e : E).          (* [Error.Wrap] *)
Arguments External {E} e.
Arguments ErrorNew {E} msg.
Arguments ErrorWrap {E} e.

(** What [Run] does to the world, as it appears in a trace. *)
Inductive event (X : Externals) : Type :=
| EvSplitDBURL (url : string)
| EvBoltNew (source bucket : string)
| EvRedisNewClientFrom (url : string)
| EvLogInfo (msg : string)
| EvNewOverlayCache (cache : CacheOf X)
| EvNewServer (srv : ServerOf X)
| EvRegisterOverlayServer (server : Provider X) (srv : ServerOf X)
| EvServerRun (server : Provider X) (ctx : Ctx X).
Arguments EvSplitDBURL {X} url.
Arguments EvBoltNew {X} source bucket.
Arguments EvRedisNewClientFrom {X} url.
Arguments EvLogInfo {X} msg.
Arguments EvNewOverlayCache {X} cache.
Arguments EvNewServer {X} srv.
Arguments EvRegisterOverlayServer {X} server srv.
Arguments EvServerRun {X} server ctx.

(** [ctx.Value("masterdb").(interface{ StatDB() statdb.DB })]: fails on
    a nil interface and on a type without the method. *)
Definition masterdb (X : Externals) (ctx : Ctx X) : option (StatDB X) :=
  match Value ctx (KString "masterdb") with
  | Some v => statDBMethod X v
  | None => None
  end.

(** The context [Run] hands to the server. *)
Definition registered (X : Externals) (ctx : Ctx X) (cache : CacheOf X)
  (srv : ServerOf X) : Ctx X :=
  let ctx2 := WithValue ctx ctxKeyOverlay (Some (AnyCache (Some cache))) in
  WithValue ctx2 ctxKeyOverlayServer (Some (AnyServer (Some srv))).

(** The [switch driver] of [Run]: which store is opened. *)
Definition openStore (X : Externals) (c : Config) (driver source : string)
  : Eff.M (event X) (error (ExtError X)) (KeyValueStore X) :=
  if String.eqb driver "bolt" then
    db <- Eff.try (EvBoltNew source (OverlayBucket X)) External
            (boltdb_New X source (OverlayBucket X)) ;;
    _ <- Eff.call (EvLogInfo "Starting overlay cache with BoltDB") tt ;;
    Eff.ret db
  else if String.eqb driver "redis" then
    db <- Eff.try (EvRedisNewClientFrom (DatabaseURL c)) External
            (redis_NewClientFrom X (DatabaseURL c)) ;;
    _ <- Eff.call (EvLogInfo "Starting overlay cache with Redis") tt ;;
    Eff.ret db
  else
    Eff.fail (ErrorNew ("database scheme not supported: " ++ driver)%string).

(** [Config.Run]; the deferred monitoring task is left out, as in
    [Miniogw.GetMetainfo]. *)
Definition Run (X : Externals) (c : Config) (ctx : Ctx X) (server : Provider X)
  : Eff.M (event X) (error (ExtError X)) unit :=
  match kademlia_LoadFromContext X ctx with
  | None =>
      Eff.fail (ErrorNew "programmer error: kademlia responsibility unstarted")
  | Some kad =>
      match masterdb X ctx with
      | None => Eff.fail (ErrorNew "unable to get master db instance")
      | Some sdb =>
          ds <- Eff.try (EvSplitDBURL (DatabaseURL c)) ErrorWrap
                  (utils_SplitDBURL X (DatabaseURL c)) ;;
          db <- openStore X c (fst ds) (snd ds) ;;
          cache <- Eff.call (EvNewOverlayCache (NewOverlayCache db kad sdb))
                     (NewOverlayCache db kad sdb) ;;
          srv <- Eff.call (EvNewServer (NewServer (zap_L X) cache kad))
                   (NewServer (zap_L X) cache kad) ;;
          _ <- Eff.call (EvRegisterOverlayServer server srv) tt ;;
          let ctx2 := registered X ctx cache srv in
          match provider_Run X server ctx2 with
          | None => ([EvServerRun server ctx2], Eff.Ret tt)
          | Some e => ([EvServerRun server ctx2], Eff.Fail (External e))
          end
      end
  end.

(** [LoadFromContext]: the [*Cache] stored under [ctxKeyOverlay], nil
    ([None]) when the value there is nil or of another type. *)
Definition LoadFromContext (X : Externals) (ctx : Ctx X) : option (CacheOf X) :=
  match Value ctx ctxKeyOverlay with
  | Some (AnyCache v) => v
  | _ => None
  end.

(** [LoadServerFromContext] *)
Definition LoadServerFromContext (X : Externals) (ctx : Ctx X)
  : option (ServerOf X) :=
  match Value ctx ctxKeyOverlayServer with
  | Some (AnyServer v) => v
  | _ => None
  end.

(** Trace predicates. *)
Definition opensStore {X : Externals} (ev : event X) : bool :=
  match ev with
  | EvBoltNew _ _ | EvRedisNewClientFrom _ => true
  | _ => false
  end.

Definition buildsCache {X : Externals} (ev : event X) : bool :=
  match ev with
  | EvNewOverlayCache _ => true
  | _ => false
  end.

Definition registersServer {X : Externals} (ev : event X) : bool :=
  match ev with
  | EvNewServer _ | EvRegisterOverlayServer _ _ | EvServerRun _ _ => true
  | _ => false
  end.

Definition opensBolt {X : Externals} (ev : event X) : bool :=
  match ev with EvBoltNew _ _ => true | _ => false end.

Definition opensRedis {X : Externals} (ev : event X) : bool :=
  match ev with EvRedisNewClientFrom _ => true | _ => false end.

(** The cache of a run is backed by the store that the call [opening]
    returned as [opened]: the call was made; if it succeeded, a cache
    was built over the store it returned, and no cache over anything
    else; if it failed, [Run] returned that error and built no cache. *)
Definition backedBy (X : Externals)
  (run : Eff.M (event X) (error (ExtError X)) unit)
  (opening : event X) (opened : goresult (ExtError X) (KeyValueStore X))
  (kad : Kademlia X) (sdb : StatDB X) : Prop :=
  In opening (Eff.trace run)
  /\ (forall db,
        opened = Ok db ->
        In (EvNewOverlayCache (NewOverlayCache db kad sdb)) (Eff.trace run)
        /\ forall cache, In (EvNewOverlayCache cache) (Eff.trace run) ->
                         cache_db _ _ _ cache = db)
  /\ (forall e,
        opened = Failed e ->
        Eff.result run = Eff.Fail (External e)
        /\ existsb buildsCache (Eff.trace run) = false).

(** The run ended in an error, having opened no store, built no cache
    and registered or run no server. *)
Definition refusedAtStartup (X : Externals)
  (run : Eff.M (event X) (error (ExtError X)) unit) : Prop :=
  (exists e, Eff.result run = Eff.Fail e)
  /\ existsb opensStore (Eff.trace run) = false
  /\ existsb buildsCache (Eff.trace run) = false
  /\ existsb registersServer (Eff.trace run) = false.

(** The store [db] was opened for the scheme [driver]: BoltDB on the
    location, or Redis on the whole URL. *)
Definition storeOpened (X : Externals) (c : Config) (driver source : string)
  (db : KeyValueStore X) : Prop :=
  (driver = "bolt" /\ boltdb_New X source (OverlayBucket X) = Ok db)
  \/ (driver = "redis" /\ redis_NewClientFrom X (DatabaseURL c) = Ok db).

(** The cache and the server [Run] builds over the store [db]. *)
Definition cacheOver (X : Externals) (db : KeyValueStore X) (kad : Kademlia X)
  (sdb : StatDB X) : CacheOf X :=
  NewOverlayCache db kad sdb.

Definition serverOver (X : Externals) (db : KeyValueStore X) (kad : Kademlia X)
  (sdb : StatDB X) : ServerOf X :=
  NewServer (zap_L X) (cacheOver X db kad sdb) kad.

(** The context the server is run on, over the store [db]. *)
Definition servedContext (X : Externals) (ctx : Ctx X) (db : KeyValueStore X)
  (kad : Kademlia X) (sdb : StatDB X) : Ctx X :=
  registered X ctx (cacheOver X db kad sdb) (serverOver X db kad sdb).

(** The end of [Run] once the store [db] is open: what is done, and
    what is returned. *)
Definition served (X : Externals) (ctx : Ctx X) (server : Provider X)
  (db : KeyValueStore X) (kad : Kademlia X) (sdb : StatDB X)
  : Eff.M (event X) (error (ExtError X)) unit :=
  ([ EvNewOverlayCache (cacheOver X db kad sdb);
     EvNewServer (serverOver X db kad sdb);
     EvRegisterOverlayServer server (serverOver X db kad sdb);
     EvServerRun server (servedContext X ctx db kad sdb) ],
   match provider_Run X server (servedContext X ctx db kad sdb) with
   | None => Eff.Ret tt
   | Some e => Eff.Fail (External e)
   end).

Definition runsServer {X : Externals} (ev : event X) : bool :=
  match ev with EvServerRun _ _ => true | _ => false end.

(** The innermost binding of [k] in a list of bindings. *)
Fixpoint innermost {V : Type} (bs : list (key * option V)) (k : key)
  : option (option V) :=
  match bs with
  | [] => None
  | (k', v) :: bs' => if key_eqb k' k then Some v else innermost bs' k
  end.

(** *** [LookupConfig.ParseIDs] *)

Record IDExternals : Type := mkIDExternals {
  NodeID : Type;                (* storj.NodeID *)
  IDError : Type;
  storj_NodeIDFromString : string -> goresult IDError NodeID;
  (** [utils.CombineErrors(errs...)]; [None] is the nil error *)
  utils_CombineErrors : list IDError -> option IDError
}.

(** The [for _, s := range idStrs] loop over the accumulators [ids]
    and [idErrs]. *)
Fixpoint parseLoop (I : IDExternals) (idStrs : list string)
  (ids : list (NodeID I)) (idErrs : list (IDError I))
  : list (NodeID I) * list (IDError I) :=
  match idStrs with
  | [] => (ids, idErrs)
  | s :: rest =>
      match storj_NodeIDFromString I s with
      | Failed err => parseLoop I rest ids (idErrs ++ [err])
      | Ok id => parseLoop I rest (ids ++ [id]) idErrs
      end
  end.

(** [ParseIDs] returns [(ids, err)]; the nil list is [[]]. *)
Definition ParseIDs (I : IDExternals) (c : LookupConfig)
  : list (NodeID I) * option (IDError I) :=
  let idStrs := GoStrings.Split (NodeIDsString c) (Delimiter c) in
  let (ids, idErrs) := parseLoop I idStrs [] [] in
  match utils_CombineErrors I idErrs with
  | Some err => ([], Some err)
  | None => (ids, None)
  end.

(** The parse failures among [strs], in order. *)
Fixpoint failures (I : IDExternals) (strs : list string) : list (IDError I) :=
  match strs with
  | [] => []
  | s :: rest =>
      match storj_NodeIDFromString I s with
      | Failed err => err :: failures I rest
      | Ok _ => failures I rest
      end
  end.

(** The IDs that parse among [strs], in order. *)
Fixpoint successes (I : IDExternals) (strs : list string) : list (NodeID I) :=
  match strs with
  | [] => []
  | s :: rest =>
      match storj_NodeIDFromString I s with
      | Failed _ => successes I rest
      | Ok id => id :: successes I rest
      end
  end.

Definition parses (I : IDExternals) (s : string) : Prop :=
  exists id, storj_NodeIDFromString I s = Ok id.

(** [utils.CombineErrors] returns nil exactly on an empty argument list
    (every error [ParseIDs] passes it is non-nil). *)
Definition combinesFaithfully (I : IDExternals) : Prop :=
  forall errs, utils_CombineErrors I errs = None <-> errs = [].

(** *** Sample collaborators, for running the definitions *)

(** Modelled from the spec: [utils.SplitDBURL], missing from the
    sources; a connection string has the form [scheme://location], and
    one without the separator is an error. *)
Definition spec_SplitDBURL {E : Type} (bad : string -> E) (s : string)
  : goresult E (string * string) :=
  match GoStrings.SplitN s "://" 2 with
  | [driver; source] => Ok (driver, source)
  | _ => Failed (bad s)
  end.

Inductive SampleStore : Type :=
| BoltStore (path bucket : string)
| RedisStore (url : string).

Inductive SampleForeign : Type :=
| FKademlia (node : string)       (* a started Kademlia *)
| FMasterDB (statdb : string)     (* a master database, with StatDB() *)
| FOther (n : Z).                 (* anything else *)

Inductive SampleError : Type :=
| BadURL (url : string)
| Stopped.

Definition sampleExternals : Externals :=
  {| Kademlia := string;
     StatDB := string;
     KeyValueStore := SampleStore;
     Logger := unit;
     Provider := unit;
     Foreign := SampleForeign;
     ExtError := SampleError;
     OverlayBucket := "overlay";
     zap_L := tt;
     kademlia_LoadFromContext := fun ctx =>
       match Value ctx (KInt "kademlia.ctxKey" 0) with
       | Some (AnyForeign (FKademlia k)) => Some k
       | _ => None
       end;
     statDBMethod := fun v =>
       match v with
       | AnyForeign (FMasterDB s) => Some s
       | _ => None
       end;
     utils_SplitDBURL := spec_SplitDBURL BadURL;
     boltdb_New := fun source bucket => Ok (BoltStore source bucket);
     redis_NewClientFrom := fun url => Ok (RedisStore url);
     provider_Run := fun _ _ => None |}.

(** A context as a satellite sets it up: Kademlia started, master
    database present. *)
Definition sampleContext : Ctx sampleExternals :=
  WithValue
    (WithValue Background (KInt "kademlia.ctxKey" 0)
       (Some (AnyForeign (FKademlia "node-1"))))
    (KString "masterdb") (Some (AnyForeign (FMasterDB "statdb"))).

Inductive SampleIDError : Type :=
| BadID (s : string)
| Combined (count : nat).

(** IDs are the non-empty strings; errors combine as an error group
    does: none gives nil, one gives itself, more give a group (here
    reduced to its size). *)
Definition sampleIDs : IDExternals :=
  {| NodeID := string;
     IDError := SampleIDError;
     storj_NodeIDFromString := fun s =>
       match s with
       | EmptyString => Failed (BadID s)
       | _ => Ok s
       end;
     utils_CombineErrors := fun errs =>
       match errs with
       | [] => None
       | [e] => Some e
       | _ => Some (Combined (List.length errs))
       end |}.

(** A configuration naming a BoltDB file, and a lookup of three IDs. *)
Definition sampleBoltConfig : Config :=
  mkConfig "bolt://data/overlay.db" GoTime.Second.

(** The cache [Run] builds from [sampleBoltConfig] in [sampleContext]. *)
Definition sampleCache : CacheOf sampleExternals :=
  NewOverlayCache (BoltStore "data/overlay.db" "overlay") "node-1" "statdb".

Definition sampleLookup : LookupConfig :=
  mkLookupConfig "alpha,beta,gamma" ",".

End Overlay.

(* ================================================================= *)
(** ** The database metric destination ([DBDest])

    The Go file with [sqlupsert], [NewDBDest] and [DBDest.Metric].  The
    database lives outside the program: [sql.Open] and [Exec] take the
    state of that world and return the next one.  The mutex of a
    destination is a flag; [Lock] on a held mutex does not return. *)

Module DBDestination.

(** [sqlupsert]: the upsert statement of each supported driver. *)
Definition sqlupsert : list (string * string) :=
  [ ("sqlite3",
     "INSERT INTO metrics (metric, instance, val, timestamp) " ++
     "VALUES (?, ?, ?, ?) ON CONFLICT(metric, instance) DO UPDATE SET " ++
     "val=excluded.val, timestamp=excluded.timestamp;");
    ("postgres",
     "INSERT INTO metrics (metric, instance, val, timestamp) " ++
     "VALUES ($1, $2, $3, $4) ON CONFLICT(metric, instance) DO UPDATE SET " ++
     "val=EXCLUDED.val, timestamp=EXCLUDED.timestamp;") ]%string.

(** [v, found := m[k]] *)
Fixpoint find (m : list (string * string)) (k : string) : option string :=
  match m with
  | [] => None
  | (k', v) :: m' => if String.eqb k' k then Some v else find m' k
  end.

(** [m[k]]: the zero value [""] for a missing key. *)
Definition index (m : list (string * string)) (k : string) : string :=
  match find m k with
  | Some v => v
  | None => EmptyString
  end.

(** An argument handed to [Exec]. *)
Inductive sqlArg : Type :=
| ArgString (s : string)
| ArgFloat (v : Tags.float64)
| ArgInt (n : Z).

Record Externals : Type := mkExternals {
  World : Type;                 (* the databases, as the drivers see them *)
  Conn : Type;                  (* a non-nil [*sql.DB] *)
  SQLError : Type;
  Time : Type;                  (* time.Time *)
  time_Unix : Time -> Z;
  sql_Open : World -> string -> string -> World * goresult SQLError Conn;
  sql_Exec :
    World -> Conn -> string -> list sqlArg -> World * option SQLError
}.

(** [DBDest]; [mtx] is [true] while the mutex is held, [db] is [None]
    for the nil pointer. *)
Record DBDest (C : Type) : Type := mkDBDest {
  mtx : bool;
  driver : string;
  address : string;
  db : option C
}.
Arguments mkDBDest {C} _ _ _ _.
Arguments mtx {C} _.
Arguments driver {C} _.
Arguments address {C} _.
Arguments db {C} _.

Definition setMtx {C} (d : DBDest C) (held : bool) : DBDest C :=
  mkDBDest held (driver d) (address d) (db d).

Definition setDB {C} (d : DBDest C) (conn : C) : DBDest C :=
  mkDBDest (mtx d) (driver d) (address d) (Some conn).

(** What a call of [NewDBDest] ends in. *)
Inductive created (C : Type) : Type :=
| Created (d : DBDest C)
| Panicked (msg : string).
Arguments Created {C} d.
Arguments Panicked {C} msg.

(** [NewDBDest] *)
Definition NewDBDest {C : Type} (driver address : string) : created C :=
  match find sqlupsert driver with
  | None => Panicked ("driver " ++ driver ++ " not supported")%string
  | Some _ => Created (mkDBDest false driver address None)
  end.

Inductive event (X : Externals) : Type :=
| EvLock
| EvUnlock
| EvOpen (driver address : string)
| EvExec (conn : Conn X) (query : string) (args : list sqlArg).
Arguments EvLock {X}.
Arguments EvUnlock {X}.
Arguments EvOpen {X} driver address.
Arguments EvExec {X} conn query args.

(** A completed call of [Metric]: the world and the destination after
    it, what it did, and the error it returned ([None] for nil). *)
Record step (X : Externals) : Type := mkStep {
  world : World X;
  dest : DBDest (Conn X);
  trace : list (event X);
  err : option (SQLError X)
}.
Arguments mkStep {X} _ _ _ _.
Arguments world {X} _.
Arguments dest {X} _.
Arguments trace {X} _.
Arguments err {X} _.

(** The arguments of the upsert: metric name, instance, value and the
    time in Unix seconds. *)
Definition upsertArgs (X : Externals) (application instance key : string)
  (val : Tags.float64) (ts : Time X) : list sqlArg :=
  [ ArgString (application ++ "." ++ key)%string; ArgString instance;
    ArgFloat val; ArgInt (time_Unix X ts) ].

(** The tail of [Metric] once [db.db] is [conn]: the mutex is released,
    then the upsert is executed and its error returned. *)
Definition execute (X : Externals) (w : World X) (d : DBDest (Conn X))
  (conn : Conn X) (before : list (event X)) (args : list sqlArg) : step X :=
  let d := setMtx d false in
  let query := index sqlupsert (driver d) in
  let (w', e) := sql_Exec X w conn query args in
  mkStep w' d (before ++ [EvUnlock; EvExec conn query args]) e.

(** [DBDest.Metric]; [None] when [Lock] finds the mutex held. *)
Definition Metric (X : Externals) (w : World X) (d : DBDest (Conn X))
  (application instance key : string) (val : Tags.float64) (ts : Time X)
  : option (step X) :=
  if mtx d then None
  else
    let d := setMtx d true in
    let args := upsertArgs X application instance key val ts in
    match db d with
    | None =>
        let (w', r) := sql_Open X w (driver d) (address d) in
        match r with
        | Failed e =>
            Some (mkStep w' (setMtx d false)
                    [EvLock; EvOpen (driver d) (address d); EvUnlock] (Some e))
        | Ok conn =>
            Some (execute X w' (setDB d conn) conn
                    [EvLock; EvOpen (driver d) (address d)] args)
        end
    | Some conn => Some (execute X w d conn [EvLock] args)
    end.

(** One reported metric. *)
Record metric (X : Externals) : Type := mkMetric {
  m_application : string;
  m_instance : string;
  m_key : string;
  m_val : Tags.float64;
  m_ts : Time X
}.
Arguments mkMetric {X} _ _ _ _ _.
Arguments m_application {X} _.
Arguments m_instance {X} _.
Arguments m_key {X} _.
Arguments m_val {X} _.
Arguments m_ts {X} _.

(** Successive calls of [Metric] on one destination, one per element of
    [ms]; the result is the last world and destination and everything
    that was done, or [None] if a call found the mutex held. *)
Fixpoint report (X : Externals) (w : World X) (d : DBDest (Conn X))
  (ms : list (metric X))
  : option (World X * DBDest (Conn X) * list (event X)) :=
  match ms with
  | [] => Some (w, d, [])
  | m :: rest =>
      match Metric X w d (m_application m) (m_instance m) (m_key m)
              (m_val m) (m_ts m) with
      | None => None
      | Some s =>
          match report X (world s) (dest s) rest with
          | None => None
          | Some (w', d', t) => Some (w', d', trace s ++ t)
          end
      end
  end.

Definition isOpen {X : Externals} (ev : event X) : bool :=
  match ev with EvOpen _ _ => true | _ => false end.

Definition isExec {X : Externals} (ev : event X) : bool :=
  match ev with EvExec _ _ _ => true | _ => false end.

(** The statement of every [Exec] in [t] is [query]. *)
Definition execsUse {X : Externals} (query : string) (ev : event X) : bool :=
  match ev with
  | EvExec _ q _ => String.eqb q query
  | _ => true
  end.

(** The mutex is never taken twice, and released only while held. *)
Fixpoint balanced {X : Externals} (held : bool) (t : list (event X)) : bool :=
  match t with
  | [] => negb held
  | EvLock :: t' => negb held && balanced true t'
  | EvUnlock :: t' => held && balanced false t'
  | _ :: t' => balanced held t'
  end.

(** The locking discipline of a trace, read with the mutex [held] or
    free at its start: the mutex is taken only when free and released
    only when held, the database is opened only under the mutex, the
    upsert is executed only outside it, and at the end the mutex is
    free. *)
Fixpoint disciplined {X : Externals} (held : bool) (t : list (event X))
  : bool :=
  match t with
  | [] => negb held
  | EvLock :: t' => negb held && disciplined true t'
  | EvUnlock :: t' => held && disciplined false t'
  | EvOpen _ _ :: t' => held && disciplined held t'
  | EvExec _ _ _ :: t' => negb held && disciplined held t'
  end.

(** A database that is down for the first [n] attempts to open it:
    the world counts the attempts that remain to fail. *)
Inductive SampleSQLError : Type :=
| ConnectionRefused
| ConstraintViolated.

Definition sampleExternals : Externals :=
  {| World := nat;
     Conn := string;
     SQLError := SampleSQLError;
     Time := Z;
     time_Unix := fun nanos => nanos / 1000000000;
     sql_Open := fun w driver address =>
       match w with
       | O => (O, Ok (driver ++ ":" ++ address)%string)
       | S k => (k, Failed ConnectionRefused)
       end;
     sql_Exec := fun w conn query args => (w, None) |}.

Definition sampleMetric : metric sampleExternals :=
  @mkMetric sampleExternals "satellite" "node-1" "uptime" 0
    1540000000000000000.

(** A destination as [NewDBDest] makes it, and the same once connected. *)
Definition freshDest : DBDest (Conn sampleExternals) :=
  mkDBDest false "sqlite3" "metrics.db" None.

Definition connectedDest : DBDest (Conn sampleExternals) :=
  mkDBDest false "sqlite3" "metrics.db" (Some "sqlite3:metrics.db").

End DBDestination.

(* ================================================================= *)
(** * Properties *)

(** ** The effect monad *)

Section EffFacts.

Context {Ev E : Type}.

Lemma bind_ret_l {A B} (a : A) (k : A -> Eff.M Ev E B) :
  Eff.bind (Eff.ret a) k = k a.
Proof.
  unfold Eff.bind, Eff.ret. destruct (k a); reflexivity.
Qed.

Lemma trace_bind_prefix {A B} (m : Eff.M Ev E A) (k : A -> Eff.M Ev E B) :
  exists rest, Eff.trace (Eff.bind m k) = Eff.trace m ++ rest.
Proof.
  destruct m as [t [a | e |]]; simpl.
  - destruct (k a) as [t' r]. exists t'. reflexivity.
  - exists []. now rewrite app_nil_r.
  - exists []. now rewrite app_nil_r.
Qed.

Lemma result_bind_fail {A B} (m : Eff.M Ev E A) (k : A -> Eff.M Ev E B) e :
  Eff.result m = Eff.Fail e -> Eff.bind m k = (Eff.trace m, Eff.Fail e).
Proof.
  destruct m as [t r]; simpl; intros ->; reflexivity.
Qed.

End EffFacts.

(** ** Go integers *)

Lemma wrap_in_range bits x :
  0 < bits -> GoInt.in_range bits x -> GoInt.wrap bits x = x.
Proof.
  unfold GoInt.in_range, GoInt.wrap. intros Hb [Hlo Hhi].
  assert (Hp : 2 ^ bits = 2 * 2 ^ (bits - 1)).
  { replace bits with (Z.succ (bits - 1)) at 1 by lia.
    rewrite Z.pow_succ_r by lia. reflexivity. }
  assert (Hpos : 0 < 2 ^ (bits - 1)) by (apply Z.pow_pos_nonneg; lia).
  cbv zeta.
  destruct (Z_lt_le_dec x 0) as [Hneg | Hnn].
  - assert (Hm : x mod 2 ^ bits = x + 2 ^ bits).
    { symmetry. apply Z.mod_unique with (q := -1); lia. }
    rewrite Hm.
    destruct (Z.ltb_spec (x + 2 ^ bits) (2 ^ (bits - 1))); lia.
  - rewrite Z.mod_small by lia.
    destruct (Z.ltb_spec x (2 ^ (bits - 1))); lia.
Qed.

Lemma rem_nonzero_divisor x y :
  y <> 0 -> GoInt.rem x y = Some (Z.rem x y).
Proof.
  unfold GoInt.rem. intros H.
  destruct (Z.eqb_spec y 0); [contradiction | reflexivity].
Qed.

Lemma rem_zero_divisor x : GoInt.rem x 0 = None.
Proof. reflexivity. Qed.

(** ** miniogw: the block-size check of [GetMetainfo] *)

Section GetMetainfoFacts.

Import Miniogw.

Variable X : Externals.
Variable c : Config.
Variable identity : FullIdentity X.

Let run := GetMetainfo X c identity.

(** Case analysis on the four fallible constructors that precede the
    block-size check. *)
Ltac scheme_cases :=
  unfold run, GetMetainfo;
  destruct (overlay_NewOverlayClient X identity (OverlayAddr (Client c)))
    as [oc | e] eqn:Hoc; cbn;
  [ destruct (pdbclient_NewClient X identity (PointerDBAddr (Client c))
                (APIKey (Client c))) as [pdb | e] eqn:Hpdb; cbn;
    [ destruct (infectious_NewFEC X (MinThreshold (RS c))
                  (MaxThreshold (RS c))) as [fc | e] eqn:Hfc; cbn;
      [ destruct (eestream_NewRedundancyStrategy X
                    (eestream_NewRSScheme fc (ErasureShareSize (RS c)))
                    (RepairThreshold (RS c)) (SuccessThreshold (RS c)))
          as [rs | e] eqn:Hrs; cbn
      | ]
    | ]
  | ].

(** After the check has passed, no path ends in the block-size error. *)
Ltac stream_cases :=
  match goal with
  | |- context [streams_NewStreamStore X ?a ?b ?k ?d ?e] =>
      destruct (streams_NewStreamStore X a b k d e) as [ss | e'] eqn:Hss; cbn
  end.

Lemma schemeBuilt_inv :
  schemeBuilt X c identity ->
  forall P : Prop,
    (forall oc pdb fc rs,
        overlay_NewOverlayClient X identity (OverlayAddr (Client c)) = Ok oc ->
        pdbclient_NewClient X identity (PointerDBAddr (Client c))
          (APIKey (Client c)) = Ok pdb ->
        infectious_NewFEC X (MinThreshold (RS c)) (MaxThreshold (RS c)) = Ok fc ->
        eestream_NewRedundancyStrategy X
          (eestream_NewRSScheme fc (ErasureShareSize (RS c)))
          (RepairThreshold (RS c)) (SuccessThreshold (RS c)) = Ok rs -> P) -> P.
Proof.
  intros (oc & pdb & fc & rs & H1 & H2 & H3 & H4) P HP. eauto.
Qed.

(** [GetMetainfo] returns the block-size error exactly when the scheme
    was built and the remainder is defined and non-zero. *)
Lemma GetMetainfo_mismatch_iff :
  Eff.result run = Eff.Fail (ErrorNew blockSizeMessage)
  <-> schemeBuilt X c identity
      /\ exists r, blockSizeRemainder c = Some r /\ r <> 0.
Proof.
  split.
  - scheme_cases; try discriminate.
    destruct (blockSizeRemainder c) as [r |] eqn:Hr; cbn; try discriminate.
    destruct (Z.eqb_spec r 0) as [-> | Hne]; cbn.
    + stream_cases; discriminate.
    + intros _. split.
      * exists oc, pdb, fc, rs. auto.
      * exists r. auto.
  - intros [Hb (r & Hr & Hne)].
    apply (schemeBuilt_inv Hb). intros oc pdb fc rs H1 H2 H3 H4.
    unfold run, GetMetainfo. rewrite H1; cbn. rewrite H2; cbn.
    rewrite H3; cbn. rewrite H4; cbn. rewrite Hr; cbn.
    destruct (Z.eqb_spec r 0); [contradiction | reflexivity].
Qed.

(** With a non-zero remainder [GetMetainfo] returns an error, whatever
    the collaborators do, and never reaches [streams.NewStreamStore]. *)
Lemma GetMetainfo_mismatch_stops r :
  blockSizeRemainder c = Some r -> r <> 0 ->
  (exists e, Eff.result run = Eff.Fail e)
  /\ forall sz bs, ~ In (CallNewStreamStore sz bs) (Eff.trace run).
Proof.
  intros Hr Hne.
  scheme_cases; try rewrite Hr; cbn;
    try (destruct (Z.eqb_spec r 0); [contradiction | cbn]);
    (split; [eexists; reflexivity |]);
    intros sz bs Hin; cbn in Hin; intuition discriminate.
Qed.

(** With remainder zero the check is passed: the next call is
    [streams.NewStreamStore], once the scheme was built. *)
Lemma GetMetainfo_divisible_proceeds :
  blockSizeRemainder c = Some 0 -> schemeBuilt X c identity ->
  In (CallNewStreamStore (SegmentSize (Client c)) (BlockSize (Enc c)))
    (Eff.trace run).
Proof.
  intros Hr Hb.
  apply (schemeBuilt_inv Hb). intros oc pdb fc rs H1 H2 H3 H4.
  unfold run, GetMetainfo. rewrite H1; cbn. rewrite H2; cbn.
  rewrite H3; cbn. rewrite H4; cbn. rewrite Hr; cbn.
  stream_cases; simpl; tauto.
Qed.

End GetMetainfoFacts.

Section MiniogwClaims.

Import Miniogw.

Lemma returned_fail (X : Externals)
  (r : Eff.outcome (error (ExtError X)) (MetainfoOf X * StreamStore X)) e :
  returned r = Some (None, None, Some e) <-> r = Eff.Fail e.
Proof.
  destruct r as [[db ss] | e' |]; cbn; split; intros H;
    try discriminate; congruence.
Qed.

(** C1, as amended.  When [BlockSize] is not 0, [GetMetainfo] returns
    the block-size configuration error, with no metainfo and no stream
    store, exactly when the overlay client, the pointer DB client, the
    FEC and the redundancy strategy were constructed without error and
    [ErasureShareSize * MinThreshold % BlockSize] (on Go's [int]) is not
    0.  Whenever that remainder is not 0, [GetMetainfo] returns an error
    with no metainfo and no stream store whatever the collaborators do,
    and the trace holds no call of [streams.NewStreamStore]: the check
    runs before a stream store exists, hence before any segment is
    processed. *)
Theorem GetMetainfo_block_size_check
  (X : Externals) (c : Config) (identity : FullIdentity X)
  (HB : BlockSize (Enc c) <> 0) :
  let r := Z.rem (GoInt.mul (ErasureShareSize (RS c)) (MinThreshold (RS c)))
             (BlockSize (Enc c)) in
  let run := GetMetainfo X c identity in
  (returned (Eff.result run) = Some (None, None, Some (ErrorNew blockSizeMessage))
   <-> schemeBuilt X c identity /\ r <> 0)
  /\ (r <> 0 ->
      (exists e, returned (Eff.result run) = Some (None, None, Some e))
      /\ forall sz bs, ~ In (CallNewStreamStore sz bs) (Eff.trace run)).
Proof.
  intros r run.
  assert (Hr : blockSizeRemainder c = Some r)
    by (unfold blockSizeRemainder; now apply rem_nonzero_divisor).
  split.
  - rewrite returned_fail. unfold run. rewrite GetMetainfo_mismatch_iff.
    split.
    + intros [Hb (r' & Hr' & Hne)]. split; [exact Hb | congruence].
    + intros [Hb Hne]. split; [exact Hb | now exists r].
  - intros Hne.
    destruct (GetMetainfo_mismatch_stops X c identity r Hr Hne) as [[e He] Ht].
    split; [| exact Ht].
    exists e. now apply returned_fail.
Qed.

Lemma GetMetainfo_block_size_check_witness :
  BlockSize (Enc oddBlockConfig) <> 0
  /\ returned (Eff.result (GetMetainfo sampleExternals oddBlockConfig tt))
     = Some (None, None, Some (ErrorNew blockSizeMessage)).
Proof.
  assert (HB : BlockSize (Enc oddBlockConfig) <> 0) by discriminate.
  split; [exact HB |].
  apply (proj1 (GetMetainfo_block_size_check sampleExternals oddBlockConfig tt HB)).
  split.
  - eexists; eexists; eexists; eexists.
    repeat split; reflexivity.
  - discriminate.
Defined.

(** C1, as stated, fails: with 29 required shares and 10 total shares
    the sizes divide evenly, yet [GetMetainfo] returns a configuration
    error (no metainfo, no stream store), raised by the FEC
    constructor. *)
Lemma GetMetainfo_fails_without_mismatch :
  ~ ((exists e,
        returned (Eff.result (GetMetainfo sampleExternals shortTotalConfig tt))
        = Some (None, None, Some e))
     <-> blockSizeRemainder shortTotalConfig <> Some 0).
Proof.
  intros [Hfwd _]. apply Hfwd; [| reflexivity].
  exists (External InvalidScheme). reflexivity.
Qed.

(** C2, as amended.  With [ErasureShareSize] 1024, [MinThreshold] 29
    and [BlockSize] 1024 the product 29696 is a multiple of 1024: the
    remainder is 0, [GetMetainfo] never returns the block-size error,
    and once the scheme is built it goes on to construct the stream
    store. *)
Theorem default_sizes_pass_block_check
  (X : Externals) (c : Config) (identity : FullIdentity X)
  (HES : ErasureShareSize (RS c) = 1024)
  (Hk : MinThreshold (RS c) = 29)
  (HB : BlockSize (Enc c) = 1024) :
  GoInt.mul (ErasureShareSize (RS c)) (MinThreshold (RS c)) = 29696
  /\ blockSizeRemainder c = Some 0
  /\ Eff.result (GetMetainfo X c identity) <> Eff.Fail (ErrorNew blockSizeMessage)
  /\ (schemeBuilt X c identity ->
      In (CallNewStreamStore (SegmentSize (Client c)) 1024)
        (Eff.trace (GetMetainfo X c identity))).
Proof.
  assert (Hr : blockSizeRemainder c = Some 0)
    by (unfold blockSizeRemainder; rewrite HES, Hk, HB; reflexivity).
  repeat split.
  - rewrite HES, Hk. reflexivity.
  - exact Hr.
  - intros Hf. apply GetMetainfo_mismatch_iff in Hf.
    destruct Hf as [_ (r & Hr' & Hne)]. congruence.
  - intros Hb. rewrite <- HB. now apply GetMetainfo_divisible_proceeds.
Qed.

Lemma default_sizes_pass_block_check_witness :
  ErasureShareSize (RS defaultConfig) = 1024
  /\ MinThreshold (RS defaultConfig) = 29
  /\ BlockSize (Enc defaultConfig) = 1024
  /\ Eff.result (GetMetainfo sampleExternals defaultConfig tt)
     <> Eff.Fail (ErrorNew blockSizeMessage).
Proof.
  repeat split; try reflexivity.
  exact (proj1 (proj2 (proj2
           (default_sizes_pass_block_check sampleExternals defaultConfig tt
              eq_refl eq_refl eq_refl)))).
Defined.

(** C2, as stated, fails: under the default configuration the check
    passes and [GetMetainfo] returns a metainfo and a stream store. *)
Lemma default_construction_succeeds :
  ErasureShareSize (RS defaultConfig) = 1024
  /\ MinThreshold (RS defaultConfig) = 29
  /\ BlockSize (Enc defaultConfig) = 1024
  /\ Z.rem (1024 * 29) 1024 = 0
  /\ exists db ss,
       returned (Eff.result (GetMetainfo sampleExternals defaultConfig tt))
       = Some (Some db, Some ss, None).
Proof.
  repeat split; try reflexivity.
  eexists; eexists. vm_compute. reflexivity.
Qed.

(** C4, as amended (scheme constructors as the specification describes
    them).  For a configuration outside [0 < k <= m <= o <= n] and
    [ErasureShareSize > 0], [GetMetainfo] returns an error with no
    metainfo and no stream store; the error is InvalidScheme as soon as
    the two network clients were created; and [NewGateway] returns an
    error, so no gateway receives the scheme of such a configuration. *)
Theorem GetMetainfo_validates_scheme
  (N : Network) (c : Config) (identity : net_Identity N)
  (Hbad : ~ schemeBounds c) :
  let X := specExternals N in
  (exists e,
      returned (Eff.result (GetMetainfo X c identity))
      = Some (None, None, Some e))
  /\ (forall oc pdb,
        net_NewOverlayClient N identity (OverlayAddr (Client c)) = Ok oc ->
        net_NewPointerDB N identity (PointerDBAddr (Client c))
          (APIKey (Client c)) = Ok pdb ->
        Eff.result (GetMetainfo X c identity)
        = Eff.Fail (External (net_InvalidScheme N)))
  /\ (exists e, Eff.result (NewGateway X c identity) = Eff.Fail e).
Proof.
  intros X.
  assert (Hmain :
    (exists e, Eff.result (GetMetainfo X c identity) = Eff.Fail e)
    /\ (forall oc pdb,
          net_NewOverlayClient N identity (OverlayAddr (Client c)) = Ok oc ->
          net_NewPointerDB N identity (PointerDBAddr (Client c))
            (APIKey (Client c)) = Ok pdb ->
          Eff.result (GetMetainfo X c identity)
          = Eff.Fail (External (net_InvalidScheme N)))).
  { unfold GetMetainfo, X; cbn.
    destruct (net_NewOverlayClient N identity (OverlayAddr (Client c)))
      as [oc | e]; cbn.
    2: { split; [eexists; reflexivity | intros; discriminate]. }
    destruct (net_NewPointerDB N identity (PointerDBAddr (Client c))
                (APIKey (Client c))) as [pdb | e]; cbn.
    2: { split; [eexists; reflexivity | intros; discriminate]. }
    unfold spec_NewFEC.
    destruct (Z.ltb_spec 0 (MinThreshold (RS c))) as [Hk | Hk]; cbn.
    2: { split; [eexists; reflexivity | reflexivity]. }
    destruct (Z.leb_spec (MinThreshold (RS c)) (MaxThreshold (RS c)))
      as [Hkn | Hkn]; cbn.
    2: { split; [eexists; reflexivity | reflexivity]. }
    unfold spec_NewRedundancyStrategy; cbn.
    destruct (Z.ltb_spec 0 (ErasureShareSize (RS c))) as [Hes | Hes]; cbn.
    2: { split; [eexists; reflexivity | reflexivity]. }
    destruct (Z.leb_spec (MinThreshold (RS c)) (RepairThreshold (RS c)))
      as [Hkm | Hkm]; cbn.
    2: { split; [eexists; reflexivity | reflexivity]. }
    destruct (Z.leb_spec (RepairThreshold (RS c)) (SuccessThreshold (RS c)))
      as [Hmo | Hmo]; cbn.
    2: { split; [eexists; reflexivity | reflexivity]. }
    destruct (Z.leb_spec (SuccessThreshold (RS c)) (MaxThreshold (RS c)))
      as [Hon | Hon]; cbn.
    2: { split; [eexists; reflexivity | reflexivity]. }
    exfalso. apply Hbad. unfold schemeBounds. auto. }
  destruct Hmain as [[e He] Hinv].
  split; [| split].
  - exists e. now apply returned_fail.
  - exact Hinv.
  - exists e. unfold NewGateway.
    rewrite (result_bind_fail _ _ e He). reflexivity.
Qed.

Lemma GetMetainfo_validates_scheme_witness :
  ~ schemeBounds shortTotalConfig
  /\ Eff.result (GetMetainfo sampleExternals shortTotalConfig tt)
     = Eff.Fail (External InvalidScheme).
Proof.
  assert (Hbad : ~ schemeBounds shortTotalConfig).
  { unfold schemeBounds. cbn. lia. }
  split; [exact Hbad |].
  exact (proj1 (proj2
           (GetMetainfo_validates_scheme sampleNetwork shortTotalConfig tt Hbad))
           EmptyString (EmptyString, EmptyString) eq_refl eq_refl).
Defined.

(** C4, as stated, fails: [GetRedundancyScheme] validates nothing; for
    the configuration with all share counts zero it returns a scheme
    with zero required shares. *)
Lemma GetRedundancyScheme_unvalidated :
  ~ schemeBounds zeroSharesConfig
  /\ GetRedundancyScheme zeroSharesConfig
     = Storj.mkRedundancyScheme Storj.ReedSolomon 0 0 0 0
  /\ ~ schemeBoundsOf (GetRedundancyScheme zeroSharesConfig).
Proof.
  split; [| split].
  - unfold schemeBounds. cbn. lia.
  - reflexivity.
  - unfold schemeBoundsOf. cbn. lia.
Qed.

(** C5, as amended.  For every configuration whose four thresholds fit
    an [int16] and whose [BlockSize] fits an [int32],
    [GetRedundancyScheme] returns Algorithm = ReedSolomon,
    RequiredShares = MinThreshold, RepairShares = RepairThreshold,
    OptimalShares = SuccessThreshold, TotalShares = MaxThreshold, and
    [GetEncryptionScheme] returns Cipher = [storj.Cipher(DataType)] and
    BlockSize = BlockSize. *)
Theorem schemes_pass_through
  (X : Externals) (c : Config)
  (Hk : GoInt.in_range 16 (MinThreshold (RS c)))
  (Hm : GoInt.in_range 16 (RepairThreshold (RS c)))
  (Ho : GoInt.in_range 16 (SuccessThreshold (RS c)))
  (Hn : GoInt.in_range 16 (MaxThreshold (RS c)))
  (Hb : GoInt.in_range 32 (BlockSize (Enc c))) :
  GetRedundancyScheme c
  = Storj.mkRedundancyScheme Storj.ReedSolomon
      (MinThreshold (RS c)) (RepairThreshold (RS c))
      (SuccessThreshold (RS c)) (MaxThreshold (RS c))
  /\ GetEncryptionScheme X c
     = Storj.mkEncryptionScheme (storj_Cipher X (DataType (Enc c)))
         (BlockSize (Enc c)).
Proof.
  unfold GetRedundancyScheme, GetEncryptionScheme, GoInt.int16, GoInt.int32.
  rewrite !wrap_in_range by (assumption || lia).
  split; reflexivity.
Qed.

Lemma schemes_pass_through_witness :
  (GoInt.in_range 16 (MinThreshold (RS defaultConfig))
   /\ GoInt.in_range 16 (RepairThreshold (RS defaultConfig))
   /\ GoInt.in_range 16 (SuccessThreshold (RS defaultConfig))
   /\ GoInt.in_range 16 (MaxThreshold (RS defaultConfig))
   /\ GoInt.in_range 32 (BlockSize (Enc defaultConfig)))
  /\ GetRedundancyScheme defaultConfig
     = Storj.mkRedundancyScheme Storj.ReedSolomon 29 35 80 95
  /\ GetEncryptionScheme sampleExternals defaultConfig
     = Storj.mkEncryptionScheme AESGCM 1024.
Proof.
  assert (H16 : forall x, 0 <= x < 100 -> GoInt.in_range 16 x)
    by (unfold GoInt.in_range; cbn; lia).
  assert (Hk : GoInt.in_range 16 (MinThreshold (RS defaultConfig)))
    by (apply H16; cbn; lia).
  assert (Hm : GoInt.in_range 16 (RepairThreshold (RS defaultConfig)))
    by (apply H16; cbn; lia).
  assert (Ho : GoInt.in_range 16 (SuccessThreshold (RS defaultConfig)))
    by (apply H16; cbn; lia).
  assert (Hn : GoInt.in_range 16 (MaxThreshold (RS defaultConfig)))
    by (apply H16; cbn; lia).
  assert (Hb : GoInt.in_range 32 (BlockSize (Enc defaultConfig)))
    by (unfold GoInt.in_range; cbn; lia).
  split; [exact (conj Hk (conj Hm (conj Ho (conj Hn Hb)))) |].
  exact (schemes_pass_through sampleExternals defaultConfig Hk Hm Ho Hn Hb).
Defined.

(** C5, as stated, fails: a threshold of 40000 does not fit an [int16],
    and the scheme carries -25536 instead. *)
Lemma GetRedundancyScheme_truncates :
  MinThreshold (RS wideThresholdConfig) = 40000
  /\ Storj.RequiredShares (GetRedundancyScheme wideThresholdConfig) = -25536
  /\ Storj.RequiredShares (GetRedundancyScheme wideThresholdConfig)
     <> MinThreshold (RS wideThresholdConfig).
Proof.
  repeat split; try reflexivity. discriminate.
Qed.

(** C6.  The [default] tags give MinThreshold (k) = 29, MaxThreshold
    (n) = 95 and SegmentSize = 64,000,000 bytes, the parameters of the
    end-to-end example. *)
Theorem defaults_match_example :
  option_map MinThreshold RSConfig_default = Some 29
  /\ option_map MaxThreshold RSConfig_default = Some 95
  /\ option_map SegmentSize ClientConfig_default = Some 64000000
  /\ MinThreshold (RS defaultConfig) = 29
  /\ MaxThreshold (RS defaultConfig) = 95
  /\ SegmentSize (Client defaultConfig) = 64000000.
Proof.
  repeat split; vm_compute; reflexivity.
Qed.

End MiniogwClaims.

(** ** overlay: contexts *)

Section ContextFacts.

Import GoContext Overlay.

Variable X : Externals.

Lemma Value_in_bindings (ctx : Ctx X) k v :
  Value ctx k = Some v -> exists k', key_eqb k' k = true /\ In (k', Some v) (bindings ctx).
Proof.
  induction ctx as [| parent IH k' val]; cbn.
  - discriminate.
  - destruct (key_eqb k' k) eqn:Hk.
    + intros ->. exists k'. auto.
    + intros H. destruct (IH H) as (k'' & Hk'' & Hin). exists k''. auto.
Qed.

Lemma key_eqb_eq a b : key_eqb a b = true -> a = b.
Proof.
  destruct a as [t n | s], b as [t' n' | s']; cbn; try discriminate.
  - intros H. apply andb_true_iff in H. destruct H as [Ht Hn].
    apply String.eqb_eq in Ht. apply Z.eqb_eq in Hn. congruence.
  - intros H. apply String.eqb_eq in H. congruence.
Qed.

Lemma LoadFromContext_registered (ctx : Ctx X) cache srv :
  LoadFromContext X (registered X ctx cache srv) = Some cache.
Proof. reflexivity. Qed.

Lemma LoadServerFromContext_registered (ctx : Ctx X) cache srv :
  LoadServerFromContext X (registered X ctx cache srv) = Some srv.
Proof. reflexivity. Qed.

Lemma LoadFromContext_absent (ctx : Ctx X) :
  (forall p, ~ In (ctxKeyOverlay, Some (AnyCache p)) (bindings ctx)) ->
  LoadFromContext X ctx = None.
Proof.
  intros Hno. unfold LoadFromContext.
  destruct (Value ctx ctxKeyOverlay) as [[p | p | v] |] eqn:Hv; try reflexivity.
  destruct (Value_in_bindings _ _ _ Hv) as (k' & Hk & Hin).
  apply key_eqb_eq in Hk. subst k'. destruct (Hno p Hin).
Qed.

Lemma LoadServerFromContext_absent (ctx : Ctx X) :
  (forall p, ~ In (ctxKeyOverlayServer, Some (AnyServer p)) (bindings ctx)) ->
  LoadServerFromContext X ctx = None.
Proof.
  intros Hno. unfold LoadServerFromContext.
  destruct (Value ctx ctxKeyOverlayServer) as [[p | p | v] |] eqn:Hv;
    try reflexivity.
  destruct (Value_in_bindings _ _ _ Hv) as (k' & Hk & Hin).
  apply key_eqb_eq in Hk. subst k'. destruct (Hno p Hin).
Qed.

End ContextFacts.

(** ** overlay: [Run] *)

Section RunFacts.

Import GoContext Overlay.

Variable X : Externals.
Variable c : Config.
Variable ctx : Ctx X.
Variable server : Provider X.

Let run := Run X c ctx server.

Lemma Run_kademlia_unstarted :
  kademlia_LoadFromContext X ctx = None ->
  run = ([], Eff.Fail
               (ErrorNew "programmer error: kademlia responsibility unstarted")).
Proof. unfold run, Run. intros ->. reflexivity. Qed.

Lemma Run_masterdb_missing kad :
  kademlia_LoadFromContext X ctx = Some kad ->
  masterdb X ctx = None ->
  run = ([], Eff.Fail (ErrorNew "unable to get master db instance")).
Proof. unfold run, Run. intros -> ->. reflexivity. Qed.

(** Case analysis on the two precondition checks of [Run]. *)
Ltac preconditions :=
  unfold run, Run;
  destruct (kademlia_LoadFromContext X ctx) as [kad |] eqn:Hkad;
  [ destruct (masterdb X ctx) as [sdb |] eqn:Hsdb | ].

(** The last step of [Run]: the server is run on the new context. *)
Ltac serve :=
  match goal with
  | |- context [provider_Run X ?s ?k] => destruct (provider_Run X s k); cbn
  end.

Lemma Run_bolt source :
  utils_SplitDBURL X (DatabaseURL c) = Ok ("bolt", source) ->
  existsb opensRedis (Eff.trace run) = false
  /\ forall kad sdb,
       kademlia_LoadFromContext X ctx = Some kad ->
       masterdb X ctx = Some sdb ->
       backedBy X run (EvBoltNew source (OverlayBucket X)) (boltdb_New X source (OverlayBucket X)) kad sdb.
Proof.
  intros Hsplit. split.
  - preconditions; try reflexivity.
    rewrite Hsplit; cbn.
    destruct (boltdb_New X source (OverlayBucket X)); cbn;
      [serve |]; reflexivity.
  - intros kad sdb Hkad Hsdb. unfold backedBy.
    unfold run, Run. rewrite Hkad, Hsdb, Hsplit; cbn.
    destruct (boltdb_New X source (OverlayBucket X)) as [db | e]; cbn.
    + split; [serve; cbn; tauto |].
      split; [| intros; discriminate].
      intros db' Heq. injection Heq as <-.
      split; [serve; cbn; tauto |].
      intros cache Hin.
      assert (Hc : cache = NewOverlayCache db kad sdb).
      { revert Hin. serve; cbn; intros Hin;
          repeat (destruct Hin as [Hin | Hin]; try discriminate Hin;
                  try (injection Hin as <-; reflexivity));
          destruct Hin. }
      rewrite Hc. reflexivity.
    + split; [cbn; tauto |].
      split; [intros; discriminate |].
      intros e' Heq. injection Heq as <-. split; reflexivity.
Qed.

Lemma Run_redis source :
  utils_SplitDBURL X (DatabaseURL c) = Ok ("redis", source) ->
  existsb opensBolt (Eff.trace run) = false
  /\ forall kad sdb,
       kademlia_LoadFromContext X ctx = Some kad ->
       masterdb X ctx = Some sdb ->
       backedBy X run (EvRedisNewClientFrom (DatabaseURL c)) (redis_NewClientFrom X (DatabaseURL c)) kad sdb.
Proof.
  intros Hsplit. split.
  - preconditions; try reflexivity.
    rewrite Hsplit; cbn.
    destruct (redis_NewClientFrom X (DatabaseURL c)); cbn;
      [serve |]; reflexivity.
  - intros kad sdb Hkad Hsdb. unfold backedBy.
    unfold run, Run. rewrite Hkad, Hsdb, Hsplit; cbn.
    destruct (redis_NewClientFrom X (DatabaseURL c)) as [db | e]; cbn.
    + split; [serve; cbn; tauto |].
      split; [| intros; discriminate].
      intros db' Heq. injection Heq as <-.
      split; [serve; cbn; tauto |].
      intros cache Hin.
      assert (Hc : cache = NewOverlayCache db kad sdb).
      { revert Hin. serve; cbn; intros Hin;
          repeat (destruct Hin as [Hin | Hin]; try discriminate Hin;
                  try (injection Hin as <-; reflexivity));
          destruct Hin. }
      rewrite Hc. reflexivity.
    + split; [cbn; tauto |].
      split; [intros; discriminate |].
      intros e' Heq. injection Heq as <-. split; reflexivity.
Qed.

Lemma Run_unsupported driver source :
  utils_SplitDBURL X (DatabaseURL c) = Ok (driver, source) ->
  driver <> "bolt" -> driver <> "redis" ->
  refusedAtStartup X run
  /\ forall kad sdb,
       kademlia_LoadFromContext X ctx = Some kad ->
       masterdb X ctx = Some sdb ->
       Eff.result run
       = Eff.Fail (ErrorNew ("database scheme not supported: " ++ driver)%string).
Proof.
  intros Hsplit Hb Hr.
  assert (Eb : String.eqb driver "bolt" = false) by now apply String.eqb_neq.
  assert (Er : String.eqb driver "redis" = false) by now apply String.eqb_neq.
  unfold refusedAtStartup.
  preconditions.
  - rewrite Hsplit; cbn. unfold openStore. rewrite Eb, Er; cbn.
    repeat split; try reflexivity.
    + eexists; reflexivity.
  - repeat split; try reflexivity; try (eexists; reflexivity).
    intros; discriminate.
  - repeat split; try reflexivity; try (eexists; reflexivity).
    intros; discriminate.
Qed.

(** A connection string that does not split is refused as well, with
    the wrapped error of [utils.SplitDBURL]. *)
Lemma Run_malformed_url e :
  utils_SplitDBURL X (DatabaseURL c) = Failed e ->
  refusedAtStartup X run
  /\ forall kad sdb,
       kademlia_LoadFromContext X ctx = Some kad ->
       masterdb X ctx = Some sdb ->
       Eff.result run = Eff.Fail (ErrorWrap e).
Proof.
  intros Hsplit. unfold refusedAtStartup.
  preconditions.
  - rewrite Hsplit; cbn.
    repeat split; try reflexivity. eexists; reflexivity.
  - repeat split; try reflexivity; try (eexists; reflexivity).
    intros; discriminate.
  - repeat split; try reflexivity; try (eexists; reflexivity).
    intros; discriminate.
Qed.

(** Whatever context the server is run on is the one [Run] registered
    its cache and server in. *)
Lemma Run_serves_registered server' ctx2 :
  In (EvServerRun server' ctx2) (Eff.trace run) ->
  exists cache srv,
    In (EvNewOverlayCache cache) (Eff.trace run)
    /\ In (EvNewServer srv) (Eff.trace run)
    /\ ctx2 = registered X ctx cache srv.
Proof.
  preconditions; cbn; try tauto.
  destruct (utils_SplitDBURL X (DatabaseURL c)) as [[driver source] | e];
    cbn; [| intuition discriminate].
  unfold openStore.
  destruct (String.eqb driver "bolt"); cbn.
  - destruct (boltdb_New X source (OverlayBucket X)) as [db | e]; cbn;
      [| intuition discriminate].
    serve; intros Hin;
      repeat (destruct Hin as [Hin | Hin]; [try discriminate Hin |]);
      try contradiction;
      injection Hin as _ <-; eexists; eexists; cbn; intuition eauto.
  - destruct (String.eqb driver "redis"); cbn; [| intuition discriminate].
    destruct (redis_NewClientFrom X (DatabaseURL c)) as [db | e]; cbn;
      [| intuition discriminate].
    serve; intros Hin;
      repeat (destruct Hin as [Hin | Hin]; [try discriminate Hin |]);
      try contradiction;
      injection Hin as _ <-; eexists; eexists; cbn; intuition eauto.
Qed.

End RunFacts.

(** ** overlay: [ParseIDs] *)

Section ParseIDsFacts.

Import Overlay.

Variable I : IDExternals.

Lemma parseLoop_spec strs : forall ids idErrs,
  parseLoop I strs ids idErrs
  = (ids ++ successes I strs, idErrs ++ failures I strs).
Proof.
  induction strs as [| s rest IH]; intros ids idErrs; cbn.
  - now rewrite !app_nil_r.
  - destruct (storj_NodeIDFromString I s) as [id | err].
    + rewrite IH, <- app_assoc. reflexivity.
    + rewrite IH, <- app_assoc. reflexivity.
Qed.

Lemma failures_nil_iff strs :
  failures I strs = [] <-> Forall (parses I) strs.
Proof.
  induction strs as [| s rest IH]; cbn.
  - split; auto.
  - destruct (storj_NodeIDFromString I s) as [id | err] eqn:Hs.
    + rewrite IH. split.
      * intros H. constructor; [now exists id | exact H].
      * intros H. now inversion H.
    + split; [discriminate |].
      intros H. inversion H as [| ? ? [id Hid] ?]. congruence.
Qed.

Lemma successes_all strs :
  Forall (parses I) strs ->
  Forall2 (fun s id => storj_NodeIDFromString I s = Ok id) strs
    (successes I strs).
Proof.
  induction 1 as [| s rest [id Hid] _ IH]; cbn.
  - constructor.
  - rewrite Hid. constructor; assumption.
Qed.

Lemma ParseIDs_unfold c :
  ParseIDs I c
  = let strs := GoStrings.Split (NodeIDsString c) (Delimiter c) in
    match utils_CombineErrors I (failures I strs) with
    | Some err => ([], Some err)
    | None => (successes I strs, None)
    end.
Proof.
  unfold ParseIDs. rewrite parseLoop_spec. reflexivity.
Qed.

End ParseIDsFacts.

(** ** overlay: the claims *)

Section OverlayClaims.

Import GoContext Overlay.

(** C3.  [Run] chooses the store by the scheme of [DatabaseURL] alone.
    With scheme "bolt" it never opens Redis and, once Kademlia and the
    master database are there, opens BoltDB on the location and builds
    the cache over the store BoltDB returned; with scheme "redis" the
    same holds with Redis opened on the URL and BoltDB never opened;
    with any other scheme [Run] itself returns an error, having opened
    no store, built no cache and registered no server. *)
Theorem Run_selects_store_by_scheme
  (X : Externals) (c : Config) (ctx : Ctx X) (server : Provider X)
  (driver source : string)
  (Hsplit : utils_SplitDBURL X (DatabaseURL c) = Ok (driver, source)) :
  let run := Run X c ctx server in
  (driver = "bolt" ->
     existsb opensRedis (Eff.trace run) = false
     /\ forall kad sdb,
          kademlia_LoadFromContext X ctx = Some kad ->
          masterdb X ctx = Some sdb ->
          backedBy X run (EvBoltNew source (OverlayBucket X))
            (boltdb_New X source (OverlayBucket X)) kad sdb)
  /\ (driver = "redis" ->
     existsb opensBolt (Eff.trace run) = false
     /\ forall kad sdb,
          kademlia_LoadFromContext X ctx = Some kad ->
          masterdb X ctx = Some sdb ->
          backedBy X run (EvRedisNewClientFrom (DatabaseURL c))
            (redis_NewClientFrom X (DatabaseURL c)) kad sdb)
  /\ (driver <> "bolt" -> driver <> "redis" ->
     refusedAtStartup X run
     /\ forall kad sdb,
          kademlia_LoadFromContext X ctx = Some kad ->
          masterdb X ctx = Some sdb ->
          Eff.result run
          = Eff.Fail
              (ErrorNew ("database scheme not supported: " ++ driver)%string)).
Proof.
  intros run. split; [| split].
  - intros ->. exact (Run_bolt X c ctx server source Hsplit).
  - intros ->. exact (Run_redis X c ctx server source Hsplit).
  - intros Hb Hr. exact (Run_unsupported X c ctx server driver source Hsplit Hb Hr).
Qed.

Lemma Run_selects_store_by_scheme_witness :
  utils_SplitDBURL sampleExternals (DatabaseURL sampleBoltConfig)
  = Ok ("bolt", "data/overlay.db")
  /\ In (@EvNewOverlayCache sampleExternals sampleCache)
       (Eff.trace (Run sampleExternals sampleBoltConfig sampleContext tt)).
Proof.
  assert (Hsplit : utils_SplitDBURL sampleExternals (DatabaseURL sampleBoltConfig)
                   = Ok ("bolt", "data/overlay.db")) by reflexivity.
  split; [exact Hsplit |].
  pose proof (Run_selects_store_by_scheme sampleExternals sampleBoltConfig
                sampleContext tt "bolt" "data/overlay.db" Hsplit) as H.
  destruct H as [Hbolt _].
  destruct (Hbolt eq_refl) as [_ Hback].
  destruct (Hback "node-1" "statdb" eq_refl eq_refl) as (_ & Hok & _).
  exact (proj1 (Hok (BoltStore "data/overlay.db" "overlay") eq_refl)).
Defined.

(** C7.  The refresh interval is a field of the overlay configuration;
    its [default] tag is "1s", which denotes one second. *)
Theorem refresh_interval_default :
  option_map Tags.default (Tags.lookup Config_fields "RefreshInterval")
  = Some (Some "1s")
  /\ option_map RefreshInterval Config_default = Some GoTime.Second
  /\ GoTime.Second = 1000000000 * GoTime.Nanosecond.
Proof.
  repeat split; vm_compute; reflexivity.
Qed.

(** C8.  [ParseIDs] is all-or-nothing, [utils.CombineErrors] returning
    nil exactly for no errors.  If every substring that [strings.Split]
    cuts from [NodeIDsString] parses, the result is one ID per
    substring, in order, with a nil error.  Otherwise the result is the
    nil list with a non-nil error, the combination of all parse
    failures in order. *)
Theorem ParseIDs_all_or_nothing
  (I : IDExternals) (c : LookupConfig)
  (Hcombine : combinesFaithfully I) :
  let strs := GoStrings.Split (NodeIDsString c) (Delimiter c) in
  (Forall (parses I) strs ->
     exists ids,
       ParseIDs I c = (ids, None)
       /\ Forall2 (fun s id => storj_NodeIDFromString I s = Ok id) strs ids)
  /\ (~ Forall (parses I) strs ->
     exists err,
       ParseIDs I c = ([], Some err)
       /\ utils_CombineErrors I (failures I strs) = Some err).
Proof.
  intros strs. rewrite ParseIDs_unfold. fold strs. cbv zeta. split.
  - intros Hall.
    assert (Hnil : failures I strs = []) by now apply failures_nil_iff.
    rewrite Hnil.
    rewrite (proj2 (Hcombine []) eq_refl).
    exists (successes I strs). split; [reflexivity |].
    now apply successes_all.
  - intros Hnot.
    destruct (utils_CombineErrors I (failures I strs)) as [err |] eqn:Hc.
    + exists err. split; reflexivity.
    + exfalso. apply Hnot. apply failures_nil_iff. now apply Hcombine.
Qed.

Lemma sampleIDs_combine : combinesFaithfully sampleIDs.
Proof.
  intros errs. destruct errs as [| e [| e' rest]]; cbn; split;
    intros H; try reflexivity; discriminate.
Defined.

Lemma ParseIDs_all_or_nothing_witness :
  combinesFaithfully sampleIDs
  /\ ParseIDs sampleIDs sampleLookup = (["alpha"; "beta"; "gamma"], None)
  /\ exists err,
       ParseIDs sampleIDs (mkLookupConfig "alpha,,gamma" ",") = ([], Some err).
Proof.
  split; [exact sampleIDs_combine |]. split.
  - reflexivity.
  - destruct (ParseIDs_all_or_nothing sampleIDs
                (mkLookupConfig "alpha,,gamma" ",") sampleIDs_combine)
      as [_ Hfail].
    destruct Hfail as (err & Herr & _).
    + intros Hall. cbn in Hall.
      inversion Hall as [| ? ? _ Hrest]. inversion Hrest as [| ? ? [id Hid] _].
      discriminate.
    + exists err. exact Herr.
Defined.

(** C9.  The context [Run] runs the server on is the one in which it
    registered the cache and the server it built, and on that context
    [LoadFromContext] returns that cache and [LoadServerFromContext]
    that server.  On a context with no cache bound to [ctxKeyOverlay]
    [LoadFromContext] returns nil, and on one with no server bound to
    [ctxKeyOverlayServer] [LoadServerFromContext] returns nil. *)
Theorem LoadFromContext_round_trip (X : Externals) :
  (forall (ctx : Ctx X) cache srv,
      LoadFromContext X (registered X ctx cache srv) = Some cache
      /\ LoadServerFromContext X (registered X ctx cache srv) = Some srv)
  /\ (forall c (ctx : Ctx X) server server' ctx2,
        In (EvServerRun server' ctx2) (Eff.trace (Run X c ctx server)) ->
        exists cache srv,
          In (EvNewOverlayCache cache) (Eff.trace (Run X c ctx server))
          /\ In (EvNewServer srv) (Eff.trace (Run X c ctx server))
          /\ LoadFromContext X ctx2 = Some cache
          /\ LoadServerFromContext X ctx2 = Some srv)
  /\ (forall ctx : Ctx X,
        (forall p, ~ In (ctxKeyOverlay, Some (AnyCache p)) (bindings ctx)) ->
        LoadFromContext X ctx = None)
  /\ (forall ctx : Ctx X,
        (forall p, ~ In (ctxKeyOverlayServer, Some (AnyServer p)) (bindings ctx)) ->
        LoadServerFromContext X ctx = None).
Proof.
  split; [| split; [| split]].
  - intros ctx cache srv. split; reflexivity.
  - intros c ctx server server' ctx2 Hin.
    destruct (Run_serves_registered X c ctx server server' ctx2 Hin)
      as (cache & srv & Hc & Hs & ->).
    exists cache, srv. repeat split; assumption || reflexivity.
  - apply LoadFromContext_absent.
  - apply LoadServerFromContext_absent.
Qed.

(** C10.  When the context holds no started Kademlia, or no "masterdb"
    value with a [StatDB] method, [Run] returns an error and its trace
    is empty: the URL was not split, no store was opened and no cache
    was built. *)
Theorem Run_checks_preconditions_first
  (X : Externals) (c : Config) (ctx : Ctx X) (server : Provider X)
  (Hpre : kademlia_LoadFromContext X ctx = None \/ masterdb X ctx = None) :
  (exists e, Eff.result (Run X c ctx server) = Eff.Fail e)
  /\ Eff.trace (Run X c ctx server) = []
  /\ (kademlia_LoadFromContext X ctx = None ->
      Eff.result (Run X c ctx server)
      = Eff.Fail
          (ErrorNew "programmer error: kademlia responsibility unstarted")).
Proof.
  destruct (kademlia_LoadFromContext X ctx) as [kad |] eqn:Hkad.
  - destruct Hpre as [Hk | Hm]; [discriminate |].
    rewrite (Run_masterdb_missing X c ctx server kad Hkad Hm).
    repeat split; try (eexists; reflexivity). intros; discriminate.
  - rewrite (Run_kademlia_unstarted X c ctx server Hkad).
    repeat split. eexists; reflexivity.
Qed.

Lemma Run_checks_preconditions_first_witness :
  (kademlia_LoadFromContext sampleExternals Background = None
   \/ masterdb sampleExternals Background = None)
  /\ Eff.trace (Run sampleExternals sampleBoltConfig Background tt) = [].
Proof.
  assert (Hpre : kademlia_LoadFromContext sampleExternals Background = None
                 \/ masterdb sampleExternals Background = None)
    by (left; reflexivity).
  split; [exact Hpre |].
  exact (proj1 (proj2
           (Run_checks_preconditions_first sampleExternals sampleBoltConfig
              Background tt Hpre))).
Defined.

End OverlayClaims.

(** ** Connection strings

    The scheme that [spec_SplitDBURL] reads off a connection string is
    its prefix before the first ["://"]: the two supported forms. *)

Section ConnectionStrings.

Import Overlay.

Lemma string_app_assoc (a b d : string) :
  ((a ++ b) ++ d = a ++ (b ++ d))%string.
Proof.
  induction a as [| ch a IH]; cbn; [reflexivity | now rewrite IH].
Qed.

Lemma string_app_nil_r (a : string) : (a ++ EmptyString = a)%string.
Proof.
  induction a as [| ch a IH]; cbn; [reflexivity | now rewrite IH].
Qed.

Lemma rev_string_app acc s :
  GoStrings.rev_string acc s
  = (GoStrings.rev_string EmptyString s ++ acc)%string.
Proof.
  revert acc. induction s as [| ch s IH]; intros acc; cbn.
  - reflexivity.
  - rewrite IH, (IH (String ch EmptyString)).
    rewrite string_app_assoc. reflexivity.
Qed.

Lemma split_scan_no_cut sep s : forall cur,
  GoStrings.split_scan sep (Some O) O cur s
  = [(GoStrings.rev_string EmptyString cur ++ s)%string].
Proof.
  induction s as [| ch s IH]; intros cur; cbn.
  - now rewrite string_app_nil_r.
  - rewrite IH. cbn. rewrite (rev_string_app (String ch EmptyString)).
    rewrite string_app_assoc. reflexivity.
Qed.

Lemma spec_SplitDBURL_bolt {E : Type} (bad : string -> E) location :
  spec_SplitDBURL bad ("bolt://" ++ location) = Ok ("bolt", location).
Proof.
  assert (Hp : prefix EmptyString location = true)
    by (destruct location; reflexivity).
  unfold spec_SplitDBURL, GoStrings.SplitN. cbn.
  rewrite Hp, ?split_scan_no_cut. reflexivity.
Qed.

Lemma spec_SplitDBURL_redis {E : Type} (bad : string -> E) location :
  spec_SplitDBURL bad ("redis://" ++ location) = Ok ("redis", location).
Proof.
  assert (Hp : prefix EmptyString location = true)
    by (destruct location; reflexivity).
  unfold spec_SplitDBURL, GoStrings.SplitN. cbn.
  rewrite Hp, ?split_scan_no_cut. reflexivity.
Qed.

End ConnectionStrings.

(* ================================================================= *)
(** * Further properties *)

(** ** miniogw: every path through [GetMetainfo] *)

Section GetMetainfoPaths.

Import Miniogw.

Variable X : Externals.
Variable c : Config.
Variable identity : FullIdentity X.

(** [GetMetainfo] as a decision tree over what its collaborators
    return; the trace of each leaf is an initial part of
    [callSequence]. *)
Lemma GetMetainfo_paths :
  GetMetainfo X c identity =
  match overlay_NewOverlayClient X identity (OverlayAddr (Client c)) with
  | Failed e => (firstn 1 (callSequence c), Eff.Fail (External e))
  | Ok oc =>
    match pdbclient_NewClient X identity (PointerDBAddr (Client c))
            (APIKey (Client c)) with
    | Failed e => (firstn 2 (callSequence c), Eff.Fail (External e))
    | Ok pdb =>
      match infectious_NewFEC X (MinThreshold (RS c)) (MaxThreshold (RS c)) with
      | Failed e => (firstn 4 (callSequence c), Eff.Fail (External e))
      | Ok fc =>
        match eestream_NewRedundancyStrategy X
                (eestream_NewRSScheme fc (ErasureShareSize (RS c)))
                (RepairThreshold (RS c)) (SuccessThreshold (RS c)) with
        | Failed e => (firstn 6 (callSequence c), Eff.Fail (External e))
        | Ok rs =>
          let sg := segmentStoreFor X c identity oc pdb rs in
          match blockSizeRemainder c with
          | None => (firstn 7 (callSequence c), Eff.Panic)
          | Some r =>
            if r =? 0 then
              match newStreamStoreFor X c sg with
              | Failed e => (firstn 8 (callSequence c), Eff.Fail (External e))
              | Ok ss =>
                  (callSequence c, Eff.Ret (metainfoFor X c sg pdb ss, ss))
              end
            else
              (firstn 7 (callSequence c),
               Eff.Fail (ErrorNew blockSizeMessage))
          end
        end
      end
    end
  end.
Proof.
  unfold GetMetainfo.
  destruct (overlay_NewOverlayClient X identity (OverlayAddr (Client c)))
    as [oc | e]; cbn; [| reflexivity].
  destruct (pdbclient_NewClient X identity (PointerDBAddr (Client c))
              (APIKey (Client c))) as [pdb | e]; cbn; [| reflexivity].
  destruct (infectious_NewFEC X (MinThreshold (RS c)) (MaxThreshold (RS c)))
    as [fc | e]; cbn; [| reflexivity].
  destruct (eestream_NewRedundancyStrategy X
              (eestream_NewRSScheme fc (ErasureShareSize (RS c)))
              (RepairThreshold (RS c)) (SuccessThreshold (RS c)))
    as [rs | e]; cbn; [| reflexivity].
  destruct (blockSizeRemainder c) as [r |]; cbn; [| reflexivity].
  destruct (r =? 0); cbn; [| reflexivity].
  unfold newStreamStoreFor, segmentStoreFor, nodeStatsOf, keyOf.
  destruct (streams_NewStreamStore X _ _ _ _ _) as [ss | e]; reflexivity.
Qed.

End GetMetainfoPaths.

(** Case analysis along [GetMetainfo_paths]. *)
Ltac metainfo_paths X c identity :=
  rewrite (GetMetainfo_paths X c identity);
  destruct (Miniogw.overlay_NewOverlayClient X identity
              (Miniogw.OverlayAddr (Miniogw.Client c)))
    as [oc0 | e0] eqn:Hoc;
  [ destruct (Miniogw.pdbclient_NewClient X identity
                (Miniogw.PointerDBAddr (Miniogw.Client c))
                (Miniogw.APIKey (Miniogw.Client c)))
      as [pdb0 | e0] eqn:Hpdb;
    [ destruct (Miniogw.infectious_NewFEC X
                  (Miniogw.MinThreshold (Miniogw.RS c))
                  (Miniogw.MaxThreshold (Miniogw.RS c)))
        as [fc0 | e0] eqn:Hfc;
      [ destruct (Miniogw.eestream_NewRedundancyStrategy X
                    (Miniogw.eestream_NewRSScheme fc0
                       (Miniogw.ErasureShareSize (Miniogw.RS c)))
                    (Miniogw.RepairThreshold (Miniogw.RS c))
                    (Miniogw.SuccessThreshold (Miniogw.RS c)))
          as [rs0 | e0] eqn:Hrs;
        [ cbv zeta;
          destruct (Miniogw.blockSizeRemainder c) as [r0 |] eqn:Hrem;
          [ destruct (Z.eqb_spec r0 0) as [Hr0 | Hr0];
            [ destruct (Miniogw.newStreamStoreFor X c
                          (Miniogw.segmentStoreFor X c identity oc0 pdb0 rs0))
                as [ss0 | e0] eqn:Hss
            | ]
          | ]
        | ]
      | ]
    | ]
  | ].

Section GetMetainfoExtras.

Import Miniogw.

Variable X : Externals.
Variable c : Config.
Variable identity : FullIdentity X.

(** [GetMetainfo] calls its collaborators in one fixed order, each at
    most once: its trace is always an initial part of the ten-call
    sequence, and it is the whole sequence exactly when a metainfo is
    returned. *)
Theorem GetMetainfo_calls_in_order :
  exists n,
    (n <= 10)%nat
    /\ Eff.trace (GetMetainfo X c identity) = firstn n (callSequence c)
    /\ ((exists v, Eff.result (GetMetainfo X c identity) = Eff.Ret v)
        <-> n = 10%nat).
Proof.
  metainfo_paths X c identity; cbn [Eff.trace Eff.result fst snd].
  1: { exists 10%nat. repeat split; try lia; eauto. }
  all: match goal with
       | |- context [firstn ?k (callSequence c)] =>
           exists k; split; [lia | split; [reflexivity |]];
           split; [intros [v Hv]; discriminate | intros Hn; discriminate]
       end.
Qed.

(** A metainfo is returned exactly when the four scheme constructors
    succeed, the block-size remainder is 0 and the stream store is
    constructed; the metainfo is then built over that stream store, the
    segment store, the pointer DB client and the key. *)
Theorem GetMetainfo_succeeds_iff db ss :
  Eff.result (GetMetainfo X c identity) = Eff.Ret (db, ss)
  <-> exists oc pdb fc rs,
        overlay_NewOverlayClient X identity (OverlayAddr (Client c)) = Ok oc
        /\ pdbclient_NewClient X identity (PointerDBAddr (Client c))
             (APIKey (Client c)) = Ok pdb
        /\ infectious_NewFEC X (MinThreshold (RS c)) (MaxThreshold (RS c))
           = Ok fc
        /\ eestream_NewRedundancyStrategy X
             (eestream_NewRSScheme fc (ErasureShareSize (RS c)))
             (RepairThreshold (RS c)) (SuccessThreshold (RS c)) = Ok rs
        /\ blockSizeRemainder c = Some 0
        /\ newStreamStoreFor X c (segmentStoreFor X c identity oc pdb rs)
           = Ok ss
        /\ db = metainfoFor X c (segmentStoreFor X c identity oc pdb rs) pdb ss.
Proof.
  split.
  - metainfo_paths X c identity; cbn [Eff.result snd]; try discriminate.
    intros Heq. injection Heq as <- <-. subst r0.
    exists oc0, pdb0, fc0, rs0. repeat split; auto.
  - intros (oc & pdb & fc & rs & H1 & H2 & H3 & H4 & H5 & H6 & ->).
    rewrite (GetMetainfo_paths X c identity).
    rewrite H1, H2, H3, H4. cbv zeta. rewrite H5. cbn. rewrite H6.
    reflexivity.
Qed.

(** The stream store handed back is the one inside the metainfo and
    inside its bucket store; the segment store of the metainfo carries
    the configured inline threshold and node statistics, and the key
    has the length of a [storj.Key]. *)
Theorem GetMetainfo_shares_stream_store db ss
  (Hret : Eff.result (GetMetainfo X c identity) = Eff.Ret (db, ss)) :
  mi_streams _ _ _ _ db = ss
  /\ bk_streams _ (mi_buckets _ _ _ _ db) = ss
  /\ seg_maxInlineSize _ _ _ _ (mi_segments _ _ _ _ db)
     = MaxInlineSize (Client c)
  /\ seg_nodeStats _ _ _ _ (mi_segments _ _ _ _ db) = nodeStatsOf c
  /\ List.length (mi_key _ _ _ _ db) = KeySize X.
Proof.
  revert Hret.
  metainfo_paths X c identity; cbn [Eff.result snd]; try discriminate.
  intros Heq. injection Heq as <- <-.
  repeat split.
  cbn. unfold keyOf, copy_key.
  rewrite firstn_length_le; [reflexivity |].
  rewrite length_app, repeat_length. lia.
Qed.

(** [GetMetainfo] panics exactly when the scheme was built and
    [BlockSize] is 0: the remainder is then taken by zero. *)
Theorem GetMetainfo_panics_iff :
  Eff.result (GetMetainfo X c identity) = Eff.Panic
  <-> schemeBuilt X c identity /\ BlockSize (Enc c) = 0.
Proof.
  assert (Hnone : blockSizeRemainder c = None <-> BlockSize (Enc c) = 0).
  { unfold blockSizeRemainder, GoInt.rem.
    destruct (Z.eqb_spec (BlockSize (Enc c)) 0); split; intros H;
      congruence || discriminate || auto. }
  split.
  - metainfo_paths X c identity; cbn [Eff.result snd]; try discriminate.
    intros _. split; [| now apply Hnone].
    exists oc0, pdb0, fc0, rs0. auto.
  - intros [Hb Hz]. apply Hnone in Hz.
    apply (schemeBuilt_inv X c identity Hb). intros oc pdb fc rs H1 H2 H3 H4.
    rewrite (GetMetainfo_paths X c identity).
    rewrite H1, H2, H3, H4. cbv zeta. rewrite Hz. reflexivity.
Qed.

(** An error of a collaborator is handed up unchanged, and nothing is
    called after the collaborator that failed. *)
Theorem GetMetainfo_first_failure :
  (forall e,
      overlay_NewOverlayClient X identity (OverlayAddr (Client c)) = Failed e ->
      GetMetainfo X c identity
      = (firstn 1 (callSequence c), Eff.Fail (External e)))
  /\ (forall oc e,
      overlay_NewOverlayClient X identity (OverlayAddr (Client c)) = Ok oc ->
      pdbclient_NewClient X identity (PointerDBAddr (Client c))
        (APIKey (Client c)) = Failed e ->
      GetMetainfo X c identity
      = (firstn 2 (callSequence c), Eff.Fail (External e)))
  /\ (forall oc pdb e,
      overlay_NewOverlayClient X identity (OverlayAddr (Client c)) = Ok oc ->
      pdbclient_NewClient X identity (PointerDBAddr (Client c))
        (APIKey (Client c)) = Ok pdb ->
      infectious_NewFEC X (MinThreshold (RS c)) (MaxThreshold (RS c))
      = Failed e ->
      GetMetainfo X c identity
      = (firstn 4 (callSequence c), Eff.Fail (External e)))
  /\ (forall oc pdb fc e,
      overlay_NewOverlayClient X identity (OverlayAddr (Client c)) = Ok oc ->
      pdbclient_NewClient X identity (PointerDBAddr (Client c))
        (APIKey (Client c)) = Ok pdb ->
      infectious_NewFEC X (MinThreshold (RS c)) (MaxThreshold (RS c)) = Ok fc ->
      eestream_NewRedundancyStrategy X
        (eestream_NewRSScheme fc (ErasureShareSize (RS c)))
        (RepairThreshold (RS c)) (SuccessThreshold (RS c)) = Failed e ->
      GetMetainfo X c identity
      = (firstn 6 (callSequence c), Eff.Fail (External e)))
  /\ (forall oc pdb fc rs e,
      overlay_NewOverlayClient X identity (OverlayAddr (Client c)) = Ok oc ->
      pdbclient_NewClient X identity (PointerDBAddr (Client c))
        (APIKey (Client c)) = Ok pdb ->
      infectious_NewFEC X (MinThreshold (RS c)) (MaxThreshold (RS c)) = Ok fc ->
      eestream_NewRedundancyStrategy X
        (eestream_NewRSScheme fc (ErasureShareSize (RS c)))
        (RepairThreshold (RS c)) (SuccessThreshold (RS c)) = Ok rs ->
      blockSizeRemainder c = Some 0 ->
      newStreamStoreFor X c (segmentStoreFor X c identity oc pdb rs)
      = Failed e ->
      GetMetainfo X c identity
      = (firstn 8 (callSequence c), Eff.Fail (External e))).
Proof.
  repeat split; intros; rewrite (GetMetainfo_paths X c identity);
    repeat match goal with
           | H : _ = Ok _ |- _ => rewrite H; clear H
           | H : _ = Failed _ |- _ => rewrite H; clear H
           | H : blockSizeRemainder c = _ |- _ => cbv zeta; rewrite H; cbn
           end; reflexivity.
Qed.

End GetMetainfoExtras.

Section MiniogwExtras.

Import Miniogw.

Lemma GetMetainfo_shares_stream_store_witness :
  exists db ss,
    Eff.result (GetMetainfo sampleExternals defaultConfig tt) = Eff.Ret (db, ss)
    /\ mi_streams _ _ _ _ db = ss.
Proof.
  eexists; eexists. split; [reflexivity |].
  exact (proj1 (GetMetainfo_shares_stream_store sampleExternals defaultConfig
                  tt _ _ eq_refl)).
Defined.

(** As long as the product [ErasureShareSize * MinThreshold] fits an
    [int] and [BlockSize] is not 0, the block-size check passes exactly
    when [BlockSize] divides the product. *)
Theorem blockSizeRemainder_divides (c : Config)
  (HB : BlockSize (Enc c) <> 0)
  (Hfit : GoInt.in_range GoInt.int_bits
            (ErasureShareSize (RS c) * MinThreshold (RS c))) :
  blockSizeRemainder c = Some 0
  <-> (BlockSize (Enc c) | ErasureShareSize (RS c) * MinThreshold (RS c)).
Proof.
  unfold blockSizeRemainder, GoInt.mul, GoInt.int.
  rewrite wrap_in_range by (assumption || (unfold GoInt.int_bits; lia)).
  rewrite rem_nonzero_divisor by assumption.
  rewrite <- (Z.rem_divide _ _ HB).
  split; [intros H; injection H; auto | intros ->; reflexivity].
Qed.

Lemma blockSizeRemainder_divides_witness :
  BlockSize (Enc defaultConfig) <> 0
  /\ GoInt.in_range GoInt.int_bits
       (ErasureShareSize (RS defaultConfig) * MinThreshold (RS defaultConfig))
  /\ (BlockSize (Enc defaultConfig)
      | ErasureShareSize (RS defaultConfig) * MinThreshold (RS defaultConfig)).
Proof.
  assert (HB : BlockSize (Enc defaultConfig) <> 0) by discriminate.
  assert (Hfit : GoInt.in_range GoInt.int_bits
                   (ErasureShareSize (RS defaultConfig)
                    * MinThreshold (RS defaultConfig)))
    by (unfold GoInt.in_range; cbn; lia).
  split; [exact HB | split; [exact Hfit |]].
  exact (proj1 (blockSizeRemainder_divides defaultConfig HB Hfit) eq_refl).
Defined.

Lemma firstn_app_firstn {A} (n : nat) (l r : list A) :
  firstn n (l ++ r) = firstn n (firstn n l ++ r).
Proof.
  revert l. induction n as [| n IH]; intros l; [reflexivity |].
  destruct l as [| a l]; cbn; [reflexivity |].
  now rewrite IH.
Qed.

Lemma copy_key_prefix n s s' :
  firstn n (list_ascii_of_string s) = firstn n (list_ascii_of_string s') ->
  copy_key n s = copy_key n s'.
Proof.
  intros H. unfold copy_key.
  rewrite firstn_app_firstn, H, <- firstn_app_firstn. reflexivity.
Qed.

(** Only the first [KeySize] bytes of the root key count: two
    configurations that differ in the key alone, with keys agreeing on
    those bytes, make [GetMetainfo] behave identically. *)
Theorem GetMetainfo_key_truncated
  (X : Externals) (c : Config) (identity : FullIdentity X) (key : string)
  (Hkey : firstn (KeySize X) (list_ascii_of_string key)
          = firstn (KeySize X) (list_ascii_of_string (Key (Enc c)))) :
  GetMetainfo X (withKey c key) identity = GetMetainfo X c identity.
Proof.
  assert (Hk : copy_key (KeySize X) key = copy_key (KeySize X) (Key (Enc c)))
    by now apply copy_key_prefix.
  unfold GetMetainfo, withKey, withEnc, blockSizeRemainder. cbn.
  rewrite Hk. reflexivity.
Qed.

Lemma GetMetainfo_key_truncated_witness :
  GetMetainfo sampleExternals
    (withKey (withKey defaultConfig "0123456789abcdef0123456789abcdef")
       "0123456789abcdef0123456789abcdef-and-more")
    tt
  = GetMetainfo sampleExternals
      (withKey defaultConfig "0123456789abcdef0123456789abcdef") tt.
Proof.
  exact (GetMetainfo_key_truncated sampleExternals
           (withKey defaultConfig "0123456789abcdef0123456789abcdef") tt
           "0123456789abcdef0123456789abcdef-and-more" eq_refl).
Defined.

(** [NewGateway] makes the calls of [GetMetainfo] and no others; it
    fails or panics exactly as [GetMetainfo] does, and otherwise wraps
    the metainfo and stream store with the path cipher and the two
    configured schemes. *)
Theorem NewGateway_follows_GetMetainfo
  (X : Externals) (c : Config) (identity : FullIdentity X) :
  Eff.trace (NewGateway X c identity) = Eff.trace (GetMetainfo X c identity)
  /\ Eff.result (NewGateway X c identity)
     = match Eff.result (GetMetainfo X c identity) with
       | Eff.Ret (db, ss) =>
           Eff.Ret (NewStorjGateway db ss (storj_Cipher X (PathType (Enc c)))
                      (GetEncryptionScheme X c) (GetRedundancyScheme c))
       | Eff.Fail e => Eff.Fail e
       | Eff.Panic => Eff.Panic
       end.
Proof.
  unfold NewGateway.
  destruct (GetMetainfo X c identity) as [t [[db ss] | e |]]; cbn;
    rewrite ?app_nil_r; split; reflexivity.
Qed.

Lemma wrap_range bits x :
  0 < bits -> GoInt.in_range bits (GoInt.wrap bits x).
Proof.
  intros Hb. unfold GoInt.in_range, GoInt.wrap. cbv zeta.
  assert (Hp : 2 ^ bits = 2 * 2 ^ (bits - 1)).
  { replace bits with (Z.succ (bits - 1)) at 1 by lia.
    rewrite Z.pow_succ_r by lia. reflexivity. }
  assert (Hpos : 0 < 2 ^ (bits - 1)) by (apply Z.pow_pos_nonneg; lia).
  pose proof (Z.mod_pos_bound x (2 ^ bits) ltac:(lia)) as Hm.
  destruct (Z.ltb_spec (x mod 2 ^ bits) (2 ^ (bits - 1))); lia.
Qed.

Lemma wrap_congruent bits x :
  0 < bits -> (GoInt.wrap bits x) mod 2 ^ bits = x mod 2 ^ bits.
Proof.
  intros Hb. unfold GoInt.wrap. cbv zeta.
  assert (Hpos : 0 < 2 ^ bits) by (apply Z.pow_pos_nonneg; lia).
  destruct (Z.ltb_spec (x mod 2 ^ bits) (2 ^ (bits - 1))).
  - apply Z.mod_mod. lia.
  - replace (x mod 2 ^ bits - 2 ^ bits)
      with (x mod 2 ^ bits + (-1) * 2 ^ bits) by lia.
    rewrite Z.mod_add by lia. apply Z.mod_mod. lia.
Qed.

(** Whatever the configuration holds, the share counts of the scheme
    lie in the [int16] range and the block size of the encryption
    scheme in the [int32] range, each equal to the configured value
    modulo 2^16, respectively 2^32. *)
Theorem scheme_fields_wrap (X : Externals) (c : Config) :
  let rs := GetRedundancyScheme c in
  let es := GetEncryptionScheme X c in
  (GoInt.in_range 16 (Storj.RequiredShares rs)
   /\ GoInt.in_range 16 (Storj.RepairShares rs)
   /\ GoInt.in_range 16 (Storj.OptimalShares rs)
   /\ GoInt.in_range 16 (Storj.TotalShares rs)
   /\ GoInt.in_range 32 (Storj.BlockSize es))
  /\ (Storj.RequiredShares rs mod 2 ^ 16 = MinThreshold (RS c) mod 2 ^ 16
      /\ Storj.RepairShares rs mod 2 ^ 16 = RepairThreshold (RS c) mod 2 ^ 16
      /\ Storj.OptimalShares rs mod 2 ^ 16 = SuccessThreshold (RS c) mod 2 ^ 16
      /\ Storj.TotalShares rs mod 2 ^ 16 = MaxThreshold (RS c) mod 2 ^ 16
      /\ Storj.BlockSize es mod 2 ^ 32 = BlockSize (Enc c) mod 2 ^ 32).
Proof.
  cbv zeta. unfold GetRedundancyScheme, GetEncryptionScheme. cbn [
    Storj.RequiredShares Storj.RepairShares Storj.OptimalShares
    Storj.TotalShares Storj.BlockSize].
  unfold GoInt.int16, GoInt.int32.
  split.
  - repeat (split; [apply wrap_range; lia |]). apply wrap_range; lia.
  - repeat (split; [apply wrap_congruent; lia |]). apply wrap_congruent; lia.
Qed.

End MiniogwExtras.

(** ** miniogw: [NewGateway], [action] and [Run] *)

Section HostExtras.

Import Miniogw.

Variable X : Externals.
Variable H : Host X.
Variable c : Config.

(** A gateway that [NewGateway] returns was built by the whole
    ten-call sequence; its metainfo and its stream store share one
    store, and it carries the path cipher and the two schemes of the
    configuration. *)
Theorem NewGateway_gateway (identity : FullIdentity X) (gw : Gateway X)
  (Hret : Eff.result (NewGateway X c identity) = Eff.Ret gw) :
  Eff.trace (NewGateway X c identity) = callSequence c
  /\ mi_streams _ _ _ _ (gw_metainfo X gw) = gw_streams X gw
  /\ gw_pathCipher X gw = storj_Cipher X (PathType (Enc c))
  /\ gw_encryption gw = GetEncryptionScheme X c
  /\ gw_redundancy gw = GetRedundancyScheme c.
Proof.
  revert Hret. unfold NewGateway.
  metainfo_paths X c identity; cbn; try discriminate.
  intros Heq. injection Heq as <-. repeat split.
Qed.





End HostExtras.

Section HostWitnesses.

Import Miniogw.

Lemma NewGateway_gateway_witness :
  exists gw,
    Eff.result (NewGateway sampleExternals defaultConfig tt) = Eff.Ret gw
    /\ gw_redundancy gw = GetRedundancyScheme defaultConfig.
Proof.
  eexists. split; [reflexivity |].
  exact (proj2 (proj2 (proj2 (proj2
           (NewGateway_gateway sampleExternals defaultConfig tt _ eq_refl))))).
Defined.

End HostWitnesses.

(** ** overlay: every path through [Run] *)

Section RunPaths.

Import GoContext Overlay.

Variable X : Externals.
Variable c : Config.
Variable ctx : Ctx X.
Variable server : Provider X.

(** [Run] as a decision tree over what its collaborators return. *)
Lemma Run_paths :
  Run X c ctx server =
  match kademlia_LoadFromContext X ctx with
  | None =>
      ([], Eff.Fail
             (ErrorNew "programmer error: kademlia responsibility unstarted"))
  | Some kad =>
    match masterdb X ctx with
    | None => ([], Eff.Fail (ErrorNew "unable to get master db instance"))
    | Some sdb =>
      match utils_SplitDBURL X (DatabaseURL c) with
      | Failed e => ([EvSplitDBURL (DatabaseURL c)], Eff.Fail (ErrorWrap e))
      | Ok (driver, source) =>
        if String.eqb driver "bolt" then
          match boltdb_New X source (OverlayBucket X) with
          | Failed e =>
              ([EvSplitDBURL (DatabaseURL c);
                EvBoltNew source (OverlayBucket X)], Eff.Fail (External e))
          | Ok db =>
              ([EvSplitDBURL (DatabaseURL c);
                EvBoltNew source (OverlayBucket X);
                EvLogInfo "Starting overlay cache with BoltDB"]
               ++ Eff.trace (served X ctx server db kad sdb),
               Eff.result (served X ctx server db kad sdb))
          end
        else if String.eqb driver "redis" then
          match redis_NewClientFrom X (DatabaseURL c) with
          | Failed e =>
              ([EvSplitDBURL (DatabaseURL c);
                EvRedisNewClientFrom (DatabaseURL c)], Eff.Fail (External e))
          | Ok db =>
              ([EvSplitDBURL (DatabaseURL c);
                EvRedisNewClientFrom (DatabaseURL c);
                EvLogInfo "Starting overlay cache with Redis"]
               ++ Eff.trace (served X ctx server db kad sdb),
               Eff.result (served X ctx server db kad sdb))
          end
        else
          ([EvSplitDBURL (DatabaseURL c)],
           Eff.Fail
             (ErrorNew ("database scheme not supported: " ++ driver)%string))
      end
    end
  end.
Proof.
  unfold Run.
  destruct (kademlia_LoadFromContext X ctx) as [kad |]; [| reflexivity].
  destruct (masterdb X ctx) as [sdb |]; [| reflexivity].
  destruct (utils_SplitDBURL X (DatabaseURL c)) as [[driver source] | e];
    cbn; [| reflexivity].
  unfold openStore, served, servedContext, serverOver, cacheOver.
  destruct (String.eqb driver "bolt"); cbn.
  - destruct (boltdb_New X source (OverlayBucket X)) as [db | e]; cbn;
      [| reflexivity].
    destruct (provider_Run X server _); reflexivity.
  - destruct (String.eqb driver "redis"); cbn; [| reflexivity].
    destruct (redis_NewClientFrom X (DatabaseURL c)) as [db | e]; cbn;
      [| reflexivity].
    destruct (provider_Run X server _); reflexivity.
Qed.

End RunPaths.

(** Case analysis along [Run_paths]; [served] is left folded. *)
Ltac run_paths X c ctx server :=
  rewrite (Run_paths X c ctx server);
  destruct (Overlay.kademlia_LoadFromContext X ctx) as [kad0 |] eqn:Hkad;
  [ destruct (Overlay.masterdb X ctx) as [sdb0 |] eqn:Hsdb;
    [ destruct (Overlay.utils_SplitDBURL X (Overlay.DatabaseURL c))
        as [[driver0 source0] | e0] eqn:Hsplit;
      [ destruct (String.eqb_spec driver0 "bolt") as [Hbolt | Hbolt];
        [ destruct (Overlay.boltdb_New X source0 (Overlay.OverlayBucket X))
            as [db0 | e0] eqn:Hopen
        | destruct (String.eqb_spec driver0 "redis") as [Hredis | Hredis];
          [ destruct (Overlay.redis_NewClientFrom X (Overlay.DatabaseURL c))
              as [db0 | e0] eqn:Hopen
          | ] ]
      | ]
    | ]
  | ].

Section RunExtras.

Import GoContext Overlay.

Variable X : Externals.
Variable c : Config.
Variable ctx : Ctx X.
Variable server : Provider X.

Lemma served_result db kad sdb :
  Eff.result (served X ctx server db kad sdb) = Eff.Ret tt
  <-> provider_Run X server (servedContext X ctx db kad sdb) = None.
Proof.
  unfold served; cbn.
  destruct (provider_Run X server _); split; intros Hq;
    reflexivity || discriminate.
Qed.

(** [Run] returns nil exactly when Kademlia and the master database are
    in the context, the URL splits into a supported scheme, the store
    of that scheme opens, and the server, run on the context holding
    the new cache and server, returns nil. *)
Theorem Run_returns_nil_iff :
  Eff.result (Run X c ctx server) = Eff.Ret tt
  <-> exists kad sdb driver source db,
        kademlia_LoadFromContext X ctx = Some kad
        /\ masterdb X ctx = Some sdb
        /\ utils_SplitDBURL X (DatabaseURL c) = Ok (driver, source)
        /\ storeOpened X c driver source db
        /\ provider_Run X server (servedContext X ctx db kad sdb) = None.
Proof.
  unfold storeOpened. split.
  - run_paths X c ctx server; cbn [Eff.result snd]; try discriminate.
    + intros Hs. apply served_result in Hs.
      exists kad0, sdb0, driver0, source0, db0. repeat split; auto.
    + intros Hs. apply served_result in Hs.
      exists kad0, sdb0, driver0, source0, db0. repeat split; auto.
  - intros (kad & sdb & driver & source & db & H1 & H2 & H3 & Ho & Hp).
    rewrite (Run_paths X c ctx server). rewrite H1, H2, H3.
    destruct Ho as [[-> Ho] | [-> Ho]]; cbn; rewrite Ho; cbn [Eff.result snd];
      now apply served_result.
Qed.

(** Once the store is open nothing in [Run] can fail before the server
    runs: a cache is built if and only if the server is run, and that
    happens if and only if a store was opened; at most one store is
    ever opened. *)
Theorem Run_all_or_nothing :
  let t := Eff.trace (Run X c ctx server) in
  existsb buildsCache t = existsb runsServer t
  /\ (existsb runsServer t = true
      <-> exists kad sdb driver source db,
            kademlia_LoadFromContext X ctx = Some kad
            /\ masterdb X ctx = Some sdb
            /\ utils_SplitDBURL X (DatabaseURL c) = Ok (driver, source)
            /\ storeOpened X c driver source db)
  /\ (List.length (filter opensStore t) <= 1)%nat.
Proof.
  cbv zeta. unfold storeOpened.
  run_paths X c ctx server; cbn [Eff.trace fst]; cbn.
  all: split; [reflexivity |]; split; [| lia].
  all: split; try discriminate.
  all: try (intros _; exists kad0, sdb0, driver0, source0, db0;
            repeat (split; [reflexivity |]); now auto).
  all: intros (kad & sdb & driver & source & db & H1 & H2 & H3 & Ho);
    try discriminate.
  all: injection H3 as <- <-.
  all: destruct Ho as [[Hd Ho] | [Hd Ho]]; try congruence.
  all: subst; discriminate.
Qed.

(** When the server is run, it is the server [Run] was given, and
    [Run] returns what that run returns: nil for nil, the error
    unchanged otherwise. *)
Theorem Run_returns_server_result server' ctx2
  (Hin : In (EvServerRun server' ctx2) (Eff.trace (Run X c ctx server))) :
  server' = server
  /\ Eff.result (Run X c ctx server)
     = match provider_Run X server ctx2 with
       | None => Eff.Ret tt
       | Some e => Eff.Fail (External e)
       end.
Proof.
  revert Hin.
  run_paths X c ctx server; cbn [Eff.trace Eff.result fst snd]; cbn;
    intros Hin;
    repeat (destruct Hin as [Hin | Hin]; [try discriminate Hin |]);
    try contradiction;
    injection Hin as <- <-; split; reflexivity.
Qed.

End RunExtras.

(** ** overlay: contexts, further *)

Section ContextExtras.

Import GoContext Overlay.

Variable X : Externals.

Lemma key_eqb_refl k : key_eqb k k = true.
Proof.
  destruct k as [t n | s]; cbn.
  - now rewrite String.eqb_refl, Z.eqb_refl.
  - apply String.eqb_refl.
Qed.

Lemma key_eqb_neq a b : a <> b -> key_eqb a b = false.
Proof.
  intros Hne. destruct (key_eqb a b) eqn:Hk; [| reflexivity].
  apply key_eqb_eq in Hk. contradiction.
Qed.

Lemma Value_innermost {V : Type} (ctx : context V) k :
  Value ctx k
  = match innermost (bindings ctx) k with
    | Some v => v
    | None => None
    end.
Proof.
  induction ctx as [| parent IH k' val]; cbn; [reflexivity |].
  destruct (key_eqb k' k); [reflexivity | exact IH].
Qed.


(** What the loaders return is decided by the innermost binding of
    their key alone: a cache bound there is returned even when nil, and
    a value of another type bound there hides every cache bound
    further out.  Bindings of other keys change nothing. *)
Theorem LoadFromContext_innermost (ctx : Ctx X) :
  LoadFromContext X ctx
  = match innermost (bindings ctx) ctxKeyOverlay with
    | Some (Some (AnyCache p)) => p
    | _ => None
    end
  /\ LoadServerFromContext X ctx
     = match innermost (bindings ctx) ctxKeyOverlayServer with
       | Some (Some (AnyServer p)) => p
       | _ => None
       end
  /\ (forall k v, k <> ctxKeyOverlay ->
        LoadFromContext X (WithValue ctx k v) = LoadFromContext X ctx)
  /\ (forall k v, k <> ctxKeyOverlayServer ->
        LoadServerFromContext X (WithValue ctx k v)
        = LoadServerFromContext X ctx).
Proof.
  unfold LoadFromContext, LoadServerFromContext.
  split; [| split; [| split]].
  - rewrite Value_innermost.
    destruct (innermost (bindings ctx) ctxKeyOverlay) as [[[p | p | v] |] |];
      reflexivity.
  - rewrite Value_innermost.
    destruct (innermost (bindings ctx) ctxKeyOverlayServer)
      as [[[p | p | v] |] |]; reflexivity.
  - intros k v Hk. cbn [Value].
    rewrite (key_eqb_neq k ctxKeyOverlay Hk). reflexivity.
  - intros k v Hk. cbn [Value].
    rewrite (key_eqb_neq k ctxKeyOverlayServer Hk). reflexivity.
Qed.


End ContextExtras.

Section RunWitnesses.

Import GoContext Overlay.

Lemma sampleRun_serves :
  In (@EvServerRun sampleExternals tt
        (servedContext sampleExternals sampleContext
           (BoltStore "data/overlay.db" "overlay") "node-1" "statdb"))
    (Eff.trace (Run sampleExternals sampleBoltConfig sampleContext tt)).
Proof. cbn. tauto. Defined.

Lemma Run_returns_server_result_witness :
  In (@EvServerRun sampleExternals tt
        (servedContext sampleExternals sampleContext
           (BoltStore "data/overlay.db" "overlay") "node-1" "statdb"))
    (Eff.trace (Run sampleExternals sampleBoltConfig sampleContext tt))
  /\ Eff.result (Run sampleExternals sampleBoltConfig sampleContext tt)
     = Eff.Ret tt.
Proof.
  split; [exact sampleRun_serves |].
  exact (proj2 (Run_returns_server_result sampleExternals sampleBoltConfig
                  sampleContext tt tt _ sampleRun_serves)).
Defined.


End RunWitnesses.

(** ** Splitting and joining *)

Section SplitFacts.








Lemma Split_empty_string (sep : string) :
  sep <> EmptyString -> GoStrings.Split EmptyString sep = [EmptyString].
Proof.
  destruct sep; [contradiction | reflexivity].
Qed.

End SplitFacts.

(** ** overlay: [ParseIDs], further *)

Section ParseIDsExtras.

Import Overlay.


(** An empty [NodeIDsString] is not an empty list of IDs.  With a
    non-empty delimiter the empty string is parsed as the one ID: the
    result is that ID if it parses and an error if it does not.  Only
    with an empty delimiter as well is the result the empty list. *)
Theorem ParseIDs_empty_input (I : IDExternals) (c : LookupConfig)
  (Hcombine : combinesFaithfully I)
  (Hempty : NodeIDsString c = EmptyString) :
  (Delimiter c <> EmptyString ->
     (forall id, storj_NodeIDFromString I EmptyString = Ok id ->
                 ParseIDs I c = ([id], None))
     /\ (forall e, storj_NodeIDFromString I EmptyString = Failed e ->
                   exists err, ParseIDs I c = ([], Some err)
                               /\ utils_CombineErrors I [e] = Some err))
  /\ (Delimiter c = EmptyString -> ParseIDs I c = ([], None)).
Proof.
  rewrite ParseIDs_unfold. cbv zeta. rewrite Hempty. split.
  - intros Hd. rewrite (Split_empty_string _ Hd). cbn. split.
    + intros id ->. now rewrite (proj2 (Hcombine []) eq_refl).
    + intros e ->.
      destruct (utils_CombineErrors I [e]) as [err |] eqn:Hc.
      * exists err. split; reflexivity.
      * apply Hcombine in Hc. discriminate.
  - intros ->. cbn. now rewrite (proj2 (Hcombine []) eq_refl).
Qed.

Lemma ParseIDs_empty_input_witness :
  combinesFaithfully sampleIDs
  /\ NodeIDsString (mkLookupConfig "" ",") = EmptyString
  /\ exists err, ParseIDs sampleIDs (mkLookupConfig "" ",") = ([], Some err).
Proof.
  split; [exact sampleIDs_combine |]. split; [reflexivity |].
  destruct (ParseIDs_empty_input sampleIDs (mkLookupConfig "" ",")
              sampleIDs_combine eq_refl) as [Hne _].
  destruct (Hne ltac:(discriminate)) as [_ Hfail].
  destruct (Hfail (BadID "") eq_refl) as (err & Herr & _).
  exists err. exact Herr.
Defined.

End ParseIDsExtras.

(** ** The database metric destination *)

Section DBDestExtras.

Import DBDestination.

(** [NewDBDest] returns a destination exactly for the drivers "sqlite3"
    and "postgres": it is then unconnected, with a free mutex and the
    given driver and address; for any other driver it panics, naming
    the driver. *)
Theorem NewDBDest_supported_iff (C : Type) (driver address : string) :
  ((driver = "sqlite3" \/ driver = "postgres") ->
     @NewDBDest C driver address = Created (mkDBDest false driver address None))
  /\ (driver <> "sqlite3" -> driver <> "postgres" ->
      @NewDBDest C driver address
      = Panicked ("driver " ++ driver ++ " not supported")%string)
  /\ (forall d, @NewDBDest C driver address = Created d ->
                find sqlupsert driver = Some (index sqlupsert driver)
                /\ index sqlupsert driver <> EmptyString).
Proof.
  unfold NewDBDest, index. cbn [find sqlupsert].
  destruct (String.eqb_spec "sqlite3" driver) as [<- | Hs].
  - repeat split; try discriminate; intros; congruence.
  - destruct (String.eqb_spec "postgres" driver) as [<- | Hp].
    + repeat split; try discriminate; intros; congruence.
    + repeat split; try discriminate; intros; try congruence.
      destruct H; congruence.
Qed.

Variable X : Externals.

Lemma setMtx_free (d : DBDest (Conn X)) :
  mtx d = false -> setMtx (setMtx d true) false = d.
Proof. destruct d; cbn; intros ->; reflexivity. Qed.

(** On a held mutex [Metric] does not return. *)
Lemma Metric_blocked w (d : DBDest (Conn X)) a i k v ts :
  mtx d = true -> Metric X w d a i k v ts = None.
Proof. unfold Metric. intros ->. reflexivity. Qed.

(** The three ways a call of [Metric] on a free mutex can go. *)
Lemma Metric_paths w (d : DBDest (Conn X)) a i k v ts :
  mtx d = false ->
  Metric X w d a i k v ts =
  let query := index sqlupsert (driver d) in
  let args := upsertArgs X a i k v ts in
  match db d with
  | Some conn =>
      Some (mkStep (fst (sql_Exec X w conn query args)) d
              [EvLock; EvUnlock; EvExec conn query args]
              (snd (sql_Exec X w conn query args)))
  | None =>
      match snd (sql_Open X w (driver d) (address d)) with
      | Failed e =>
          Some (mkStep (fst (sql_Open X w (driver d) (address d))) d
                  [EvLock; EvOpen (driver d) (address d); EvUnlock] (Some e))
      | Ok conn =>
          let w' := fst (sql_Open X w (driver d) (address d)) in
          Some (mkStep (fst (sql_Exec X w' conn query args))
                  (mkDBDest false (driver d) (address d) (Some conn))
                  [EvLock; EvOpen (driver d) (address d); EvUnlock;
                   EvExec conn query args]
                  (snd (sql_Exec X w' conn query args)))
      end
  end.
Proof.
  intros Hfree. unfold Metric. rewrite Hfree. cbv zeta.
  destruct d as [m dr ad [conn |]]; cbn in Hfree; subst m; cbn.
  - unfold execute. cbn. destruct (sql_Exec X w conn _ _); reflexivity.
  - destruct (sql_Open X w dr ad) as [w' [conn | e]]; cbn; [| reflexivity].
    unfold execute. cbn. destruct (sql_Exec X w' conn _ _); reflexivity.
Qed.


(** The connection is opened lazily and kept: a connected destination
    is left as it is, no open is attempted, the upsert goes to the held
    connection with the metric named [application.key] and the time in
    Unix seconds, and the error of that upsert is what [Metric]
    returns. *)
Theorem Metric_connected w (d : DBDest (Conn X)) a i k v ts conn
  (Hfree : mtx d = false) (Hconn : db d = Some conn) :
  exists s,
    Metric X w d a i k v ts = Some s
    /\ dest s = d
    /\ trace s
       = [EvLock; EvUnlock;
          EvExec conn (index sqlupsert (driver d))
            [ArgString (a ++ "." ++ k)%string; ArgString i; ArgFloat v;
             ArgInt (time_Unix X ts)]]
    /\ (world s, err s)
       = sql_Exec X w conn (index sqlupsert (driver d))
           (upsertArgs X a i k v ts).
Proof.
  rewrite (Metric_paths w d a i k v ts Hfree), Hconn. cbv zeta.
  eexists. split; [reflexivity |]. cbn.
  repeat split. destruct (sql_Exec X w conn _ _); reflexivity.
Qed.

(** When the database cannot be opened, [Metric] returns the error of
    [sql.Open] with the mutex released, executes nothing and leaves the
    destination unconnected, so that the next call tries again. *)
Theorem Metric_open_failure w (d : DBDest (Conn X)) a i k v ts w' e
  (Hfree : mtx d = false) (Hnil : db d = None)
  (Hopen : sql_Open X w (driver d) (address d) = (w', Failed e)) :
  Metric X w d a i k v ts
  = Some (mkStep w' d [EvLock; EvOpen (driver d) (address d); EvUnlock]
            (Some e)).
Proof.
  rewrite (Metric_paths w d a i k v ts Hfree), Hnil, Hopen. reflexivity.
Qed.

(** When the database opens, the destination holds the new connection
    from then on and the upsert is executed on it in the same call. *)
Theorem Metric_open_success w (d : DBDest (Conn X)) a i k v ts w' conn
  (Hfree : mtx d = false) (Hnil : db d = None)
  (Hopen : sql_Open X w (driver d) (address d) = (w', Ok conn)) :
  exists s,
    Metric X w d a i k v ts = Some s
    /\ db (dest s) = Some conn
    /\ trace s
       = [EvLock; EvOpen (driver d) (address d); EvUnlock;
          EvExec conn (index sqlupsert (driver d)) (upsertArgs X a i k v ts)]
    /\ (world s, err s)
       = sql_Exec X w' conn (index sqlupsert (driver d))
           (upsertArgs X a i k v ts).
Proof.
  rewrite (Metric_paths w d a i k v ts Hfree), Hnil, Hopen. cbv zeta.
  eexists. split; [reflexivity |]. cbn.
  repeat split. destruct (sql_Exec X w' conn _ _); reflexivity.
Qed.

End DBDestExtras.

Section DBDestRuns.

Import DBDestination.

Variable X : Externals.

(** What successive calls of [Metric] keep true, from any destination
    with a free mutex. *)
Lemma report_invariant (ms : list (metric X)) :
  forall w (d : DBDest (Conn X)),
    mtx d = false ->
    exists w' d' t,
      report X w d ms = Some (w', d', t)
      /\ mtx d' = false
      /\ driver d' = driver d
      /\ address d' = address d
      /\ disciplined false t = true
      /\ forallb (execsUse (index sqlupsert (driver d))) t = true
      /\ (forall conn, db d = Some conn ->
            db d' = Some conn
            /\ existsb isOpen t = false
            /\ List.length (filter isExec t) = List.length ms)
      /\ (db d' = None -> existsb isExec t = false)
      /\ exists t1 t2,
           t = t1 ++ t2
           /\ existsb isExec t1 = false
           /\ existsb isOpen t2 = false.
Proof.
  induction ms as [| m rest IH]; intros w d Hfree.
  - exists w, d, []. cbn.
    refine (conj eq_refl (conj Hfree (conj eq_refl (conj eq_refl
              (conj eq_refl (conj eq_refl (conj _ (conj _ _)))))))).
    + intros conn Hc. auto.
    + reflexivity.
    + exists [], []. auto.
  - cbn [report].
    rewrite (Metric_paths X w d _ _ _ _ _ Hfree). cbv zeta.
    destruct (db d) as [conn |] eqn:Hdb.
    + (* connected *)
      cbn [world dest trace].
      destruct (IH (fst (sql_Exec X w conn (index sqlupsert (driver d))
                           (upsertArgs X (m_application m) (m_instance m)
                              (m_key m) (m_val m) (m_ts m)))) d Hfree)
        as (w' & d' & t & Hr & Hm & Hd & Ha & Hdisc & Huse & Hconn & Hnone & _).
      rewrite Hr. exists w', d'. eexists. split; [reflexivity |].
      destruct (Hconn conn Hdb) as (Hdb' & Hno & Hcount).
      refine (conj Hm (conj Hd (conj Ha (conj _ (conj _ (conj _
                (conj _ _))))))).
      * cbn. exact Hdisc.
      * cbn. rewrite String.eqb_refl. exact Huse.
      * intros conn' Heq. injection Heq as <-.
        cbn. rewrite Hcount. auto.
      * intros Hn. congruence.
      * eexists [], _. cbn. repeat split. exact Hno.
    + destruct (snd (sql_Open X w (driver d) (address d))) as [conn | e].
      * (* the database opens *)
        cbn [world dest trace].
        set (d2 := mkDBDest false (driver d) (address d) (Some conn)).
        destruct (IH (fst (sql_Exec X (fst (sql_Open X w (driver d) (address d)))
                             conn (index sqlupsert (driver d))
                             (upsertArgs X (m_application m) (m_instance m)
                                (m_key m) (m_val m) (m_ts m)))) d2 eq_refl)
          as (w' & d' & t & Hr & Hm & Hd & Ha & Hdisc & Huse & Hconn & _ & _).
        rewrite Hr. exists w', d'. eexists. split; [reflexivity |].
        destruct (Hconn conn eq_refl) as (Hdb' & Hno & Hcount).
        cbn in Hd, Ha, Huse.
        refine (conj Hm (conj Hd (conj Ha (conj _ (conj _ (conj _
                  (conj _ _))))))).
        -- cbn. exact Hdisc.
        -- cbn. rewrite String.eqb_refl. exact Huse.
        -- intros conn' Heq. discriminate.
        -- intros Hn. congruence.
        -- exists [EvLock; EvOpen (driver d) (address d)].
           eexists. cbn. repeat split. exact Hno.
      * (* the database does not open *)
        cbn [world dest trace].
        destruct (IH (fst (sql_Open X w (driver d) (address d))) d Hfree)
          as (w' & d' & t & Hr & Hm & Hd & Ha & Hdisc & Huse & _ & Hnone
              & t1 & t2 & Ht & H1 & H2).
        rewrite Hr. exists w', d'. eexists. split; [reflexivity |].
        refine (conj Hm (conj Hd (conj Ha (conj _ (conj _ (conj _
                  (conj _ _))))))).
        -- cbn. exact Hdisc.
        -- cbn. exact Huse.
        -- intros conn' Heq. discriminate.
        -- intros Hn. cbn. auto.
        -- exists ([EvLock; EvOpen (driver d) (address d); EvUnlock] ++ t1), t2.
           rewrite Ht. cbn. repeat split; auto.
Qed.

(** A destination made by [NewDBDest] can be reported to any number of
    times: no call finds the mutex held, the mutex ends free, driver
    and address stay as given, every upsert executed is the non-empty
    statement of the driver, and after the first upsert the database is
    never opened again. *)
Theorem report_connects_once
  (drv addr : string) (d : DBDest (Conn X)) (w : World X)
  (ms : list (metric X))
  (Hnew : NewDBDest drv addr = Created d) :
  exists w' d' t,
    report X w d ms = Some (w', d', t)
    /\ mtx d' = false /\ driver d' = drv /\ address d' = addr
    /\ disciplined false t = true
    /\ (exists q, find sqlupsert drv = Some q /\ q <> EmptyString
                  /\ forallb (execsUse q) t = true)
    /\ exists t1 t2,
         t = t1 ++ t2
         /\ existsb isExec t1 = false
         /\ existsb isOpen t2 = false.
Proof.
  assert (Hd : d = mkDBDest false drv addr None
               /\ find sqlupsert drv = Some (index sqlupsert drv)
               /\ index sqlupsert drv <> EmptyString).
  { revert Hnew. unfold NewDBDest, index.
    destruct (find sqlupsert drv) as [q |] eqn:Hq; [| discriminate].
    intros Heq. injection Heq as <-. repeat split.
    intros ->. revert Hq. unfold sqlupsert. cbn [find].
    destruct (String.eqb "sqlite3" drv); [cbn; discriminate |].
    destruct (String.eqb "postgres" drv); cbn; discriminate. }
  destruct Hd as (-> & Hfind & Hne).
  destruct (report_invariant ms w (mkDBDest false drv addr None) eq_refl)
    as (w' & d' & t & Hr & Hm & Hdr & Ha & Hdisc & Huse & _ & _ & Hsplit).
  exists w', d', t. repeat split; auto.
  exists (index sqlupsert drv). auto.
Qed.

(** A connected destination stays connected to the same database for
    any number of reports: no open is attempted and every call executes
    exactly one upsert. *)
Theorem report_stays_connected
  (d : DBDest (Conn X)) (conn : Conn X) (w : World X) (ms : list (metric X))
  (Hfree : mtx d = false) (Hconn : db d = Some conn) :
  exists w' d' t,
    report X w d ms = Some (w', d', t)
    /\ db d' = Some conn
    /\ existsb isOpen t = false
    /\ List.length (filter isExec t) = List.length ms.
Proof.
  destruct (report_invariant ms w d Hfree)
    as (w' & d' & t & Hr & _ & _ & _ & _ & _ & Hc & _).
  exists w', d', t. split; [exact Hr |]. exact (Hc conn Hconn).
Qed.

End DBDestRuns.

Section DBDestWitnesses.

Import DBDestination.


Lemma Metric_connected_witness :
  mtx connectedDest = false
  /\ db connectedDest = Some "sqlite3:metrics.db"
  /\ exists s,
       Metric sampleExternals 0%nat connectedDest "satellite" "node-1" "uptime" 0 0
       = Some s
       /\ dest s = connectedDest.
Proof.
  split; [reflexivity | split; [reflexivity |]].
  destruct (Metric_connected sampleExternals 0%nat connectedDest
              "satellite" "node-1" "uptime" 0 0 "sqlite3:metrics.db"
              eq_refl eq_refl)
    as (s & Hs & Hd & _).
  exists s. split; assumption.
Defined.

Lemma Metric_open_failure_witness :
  sql_Open sampleExternals 1%nat (driver freshDest) (address freshDest)
  = (0%nat, Failed ConnectionRefused)
  /\ Metric sampleExternals 1%nat freshDest "satellite" "node-1" "uptime" 0 0
     = Some (@mkStep sampleExternals 0%nat freshDest
               [EvLock; EvOpen "sqlite3" "metrics.db"; EvUnlock]
               (Some ConnectionRefused)).
Proof.
  split; [reflexivity |].
  exact (Metric_open_failure sampleExternals 1%nat freshDest
           "satellite" "node-1" "uptime" 0 0 0%nat ConnectionRefused
           eq_refl eq_refl eq_refl).
Defined.

Lemma Metric_open_success_witness :
  sql_Open sampleExternals 0%nat (driver freshDest) (address freshDest)
  = (0%nat, Ok "sqlite3:metrics.db")
  /\ exists s,
       Metric sampleExternals 0%nat freshDest "satellite" "node-1" "uptime" 0 0
       = Some s
       /\ db (dest s) = Some "sqlite3:metrics.db".
Proof.
  split; [reflexivity |].
  destruct (Metric_open_success sampleExternals 0%nat freshDest
              "satellite" "node-1" "uptime" 0 0 0%nat "sqlite3:metrics.db"
              eq_refl eq_refl eq_refl)
    as (s & Hs & Hd & _).
  exists s. split; assumption.
Defined.

Lemma report_connects_once_witness :
  @NewDBDest (Conn sampleExternals) "sqlite3" "metrics.db" = Created freshDest
  /\ exists w' d' t,
       report sampleExternals 1%nat freshDest [sampleMetric; sampleMetric]
       = Some (w', d', t)
       /\ mtx d' = false.
Proof.
  split; [reflexivity |].
  destruct (report_connects_once sampleExternals "sqlite3" "metrics.db" freshDest
              1%nat [sampleMetric; sampleMetric] eq_refl)
    as (w' & d' & t & Hr & Hm & _).
  exists w', d', t. split; assumption.
Defined.

Lemma report_stays_connected_witness :
  mtx connectedDest = false
  /\ db connectedDest = Some "sqlite3:metrics.db"
  /\ exists w' d' t,
       report sampleExternals 3%nat connectedDest [sampleMetric; sampleMetric]
       = Some (w', d', t)
       /\ existsb isOpen t = false.
Proof.
  split; [reflexivity | split; [reflexivity |]].
  destruct (report_stays_connected sampleExternals connectedDest
              "sqlite3:metrics.db" 3%nat [sampleMetric; sampleMetric]
              eq_refl eq_refl)
    as (w' & d' & t & Hr & _ & Hno & _).
  exists w', d', t. split; assumption.
Defined.

End DBDestWitnesses.
